(** * Contract analyzer (app.py): response extraction, prompt compilation,
      findings presentation and export.

    The Streamlit script is embedded function by function.  Python [str]
    values are sequences of Unicode code points; the session state and the
    widget values are passed explicitly. *)

From Stdlib Require Import ZArith NArith Lia String Ascii DecimalString.
From stdpp Require Import base list.

Local Open Scope Z_scope.

(** ** Python [str] *)

Module PyStr.

(** A [str] is a list of code points. *)
Definition str := list N.

Definition lit (s : string) : str :=
  List.map N_of_ascii (list_ascii_of_string s).

Definition len (s : str) : Z := Z.of_nat (length s).

(** [s.startswith(sub)] *)
Fixpoint startswith (sub s : str) : bool :=
  match sub, s with
  | [], _ => true
  | _ :: _, [] => false
  | a :: sub', b :: s' => if N.eqb a b then startswith sub' s' else false
  end.

(** Scan for [sub]; [s] is the part of the text from index [i] on.  The
    result is the index of the first match, or -1. *)
Fixpoint find_at (sub s : str) (i : nat) : Z :=
  if startswith sub s then Z.of_nat i
  else match s with
       | [] => -1
       | _ :: s' => find_at sub s' (S i)
       end.

(** Index normalisation of slices and of the [start] argument of [find]:
    a negative index counts from the end, and the result is clamped to
    [0 .. len]. *)
Definition clamp (n i : Z) : Z :=
  if i <? 0 then Z.max 0 (i + n) else Z.min i n.

(** [s.find(sub, start)] *)
Definition find (s sub : str) (start : Z) : Z :=
  if len s <? start then -1
  else let b := Z.to_nat (clamp (len s) start) in
       find_at sub (drop b s) b.

(** [sub in s] *)
Definition contains (sub s : str) : bool :=
  negb (find s sub 0 =? -1).

(** [s[a:b]] *)
Definition slice (s : str) (a b : Z) : str :=
  let lo := clamp (len s) a in
  let hi := clamp (len s) b in
  take (Z.to_nat (hi - lo)) (drop (Z.to_nat lo) s).

(** [s.endswith(sub)] *)
Definition endswith (s sub : str) : bool :=
  startswith (reverse sub) (reverse s).

(** [c.isspace()]: the code points CPython treats as whitespace. *)
Definition isspace (c : N) : bool :=
  ((9 <=? c) && (c <=? 13) ||
   (28 <=? c) && (c <=? 32) ||
   (c =? 133) || (c =? 160) || (c =? 5760) ||
   (8192 <=? c) && (c <=? 8202) ||
   (c =? 8232) || (c =? 8233) || (c =? 8239) || (c =? 8287) ||
   (c =? 12288))%N.

Fixpoint lstrip (s : str) : str :=
  match s with
  | c :: s' => if isspace c then lstrip s' else s
  | [] => []
  end.

Definition rstrip (s : str) : str := reverse (lstrip (reverse s)).

(** [s.strip()] *)
Definition strip (s : str) : str := rstrip (lstrip s).

(** [str(n)] for an [int]. *)
Definition str_of_int (n : Z) : str :=
  lit (NilZero.string_of_int (Z.to_int n)).

(** [a == b] *)
Fixpoint str_eqb (a b : str) : bool :=
  match a, b with
  | [], [] => true
  | x :: a', y :: b' => N.eqb x y && str_eqb a' b'
  | _, _ => false
  end.

(** [x in l] for a list of [str]. *)
Definition str_in (x : str) (l : list str) : bool :=
  existsb (str_eqb x) l.

(** Truth value of a [str]: non-empty. *)
Definition truthy (s : str) : bool :=
  match s with [] => false | _ :: _ => true end.

End PyStr.

Import PyStr.

(** ** Response extraction (analyze_contract_with_claude, lines 117-128) *)

Definition fence_json : str := lit "```json".
Definition fence : str := lit "```".

(** The text handed to [json.loads]: the rebinding of [response_text]. *)
Definition find_json_in_response (response_text : str) : str :=
  if contains fence_json response_text then
    let json_start := find response_text fence_json 0 + 7 in
    let json_end := find response_text fence json_start in
    strip (slice response_text json_start json_end)
  else if contains fence response_text then
    let json_start := find response_text fence 0 + 3 in
    let json_end := find response_text fence json_start in
    strip (slice response_text json_start json_end)
  else response_text.

Definition nl : string := String (ascii_of_nat 10) EmptyString.
Definition dq : string := String (ascii_of_nat 34) EmptyString.

(** ** Exceptions *)

Inductive exn :=
| KeyError (key : str)
| IndexError (index : N)       (* replacement index out of range *)
| ValueError (msg : string)
| Exception (msg : str).       (* any other exception, with its text *)

Inductive result (A : Type) :=
| Ok (a : A)
| Raise (e : exn).
Arguments Ok {A} a.
Arguments Raise {A} e.

(** ** [str.format] with keyword arguments only

    The template is read left to right, one character at a time, as
    CPython's markup iterator does: literal text is copied, a doubled brace
    is an escaped brace, and a single opening brace starts a replacement
    field (name, optional conversion after an exclamation mark, optional
    format specification after a colon, in which braces nest).  A field is
    looked up and written out as soon as it is closed, so the first failing
    field decides the exception. *)

Module Format.

Definition c_lbrace : N := 123.
Definition c_rbrace : N := 125.
Definition c_lbracket : N := 91.
Definition c_rbracket : N := 93.
Definition c_colon : N := 58.
Definition c_bang : N := 33.
Definition c_dot : N := 46.

Fixpoint lookup_kw (kwargs : list (str * str)) (key : str) : option str :=
  match kwargs with
  | [] => None
  | (k, v) :: kwargs' => if str_eqb k key then Some v else lookup_kw kwargs' key
  end.

(** The part of a field name before the first dot or opening bracket, and
    the accessors after it. *)
Fixpoint field_name_split (name : str) : str * str :=
  match name with
  | [] => ([], [])
  | c :: name' =>
      if N.eqb c c_dot || N.eqb c c_lbracket then ([], name)
      else let '(first, rest) := field_name_split name' in (c :: first, rest)
  end.

(** The code points of the digit zero of every decimal digit system of
    Unicode 14; the digits one to nine of a system follow its zero. *)
Definition decimal_zeros : list N :=
  [48; 1632; 1776; 1984; 2406; 2534; 2662; 2790; 2918; 3046; 3174; 3302;
   3430; 3558; 3664; 3792; 3872; 4160; 4240; 6112; 6160; 6470; 6608; 6784;
   6800; 6992; 7088; 7232; 7248; 42528; 43216; 43264; 43472; 43504; 43600;
   44016; 65296; 66720; 68912; 69734; 69872; 69942; 70096; 70384; 70736;
   70864; 71248; 71360; 71472; 71904; 72016; 72784; 73040; 73120; 92768;
   92864; 93008; 120782; 120792; 120802; 120812; 120822; 123200; 123632;
   125264; 130032]%N.

(** [Py_UNICODE_TODECIMAL]: the value of a decimal digit, [None] for any
    other character. *)
Definition to_decimal (c : N) : option N :=
  match List.find (fun z => (z <=? c) && (c <? z + 10))%N decimal_zeros with
  | Some z => Some (c - z)%N
  | None => None
  end.

Definition PY_SSIZE_T_MAX : N := 9223372036854775807.

(** What [get_integer] makes of a field name: an index, no index (-1
    without an exception), or the [ValueError] of an index that overflows. *)
Inductive integer :=
| Index (i : N)
| NotInteger
| TooManyDigits.

(** The loop of [get_integer]: the digits are read from the left, and an
    overflow is reported where it happens, before the characters after it
    are looked at. *)
Fixpoint get_integer_from (accumulator : N) (s : str) : integer :=
  match s with
  | [] => Index accumulator
  | c :: s' =>
      match to_decimal c with
      | None => NotInteger
      | Some digitval =>
          if ((PY_SSIZE_T_MAX - digitval) / 10 <? accumulator)%N
          then TooManyDigits
          else get_integer_from (accumulator * 10 + digitval) s'
      end
  end.

Definition get_integer (first : str) : integer :=
  match first with
  | [] => NotInteger
  | _ => get_integer_from 0 first
  end.

Inductive scan :=
| Text (out : str)
| LBrace (out : str)
| RBrace (out : str)
| Name (out name : str) (in_bracket : bool)
| Bang (out name : str)
| Conv (out name : str) (conversion : N)
| Spec (out name : str) (conversion : option N) (spec : str) (count : nat)
| Failed (e : exn).

Section WithArguments.

Variable kwargs : list (str * str).

(** What the looked-up argument does with the accessors after its name,
    the conversion and the format specification. *)
Variable format_field : str -> str -> option N -> str -> result str.

(** [output_markup]: no positional argument is passed, so a numbered or
    empty field name has nothing to index. *)
Definition output_markup (name : str) (conversion : option N) (spec : str)
  : result str :=
  let '(first, rest) := field_name_split name in
  match first, get_integer first with
  | [], _ => Raise (IndexError 0)
  | _, TooManyDigits =>
      Raise (ValueError "Too many decimal digits in format string")
  | _, Index i => Raise (IndexError i)
  | _, NotInteger =>
      match lookup_kw kwargs first with
      | None => Raise (KeyError first)
      | Some v => format_field v rest conversion spec
      end
  end.

Definition emit (out name : str) (conversion : option N) (spec : str) : scan :=
  match output_markup name conversion spec with
  | Ok s => Text (out ++ s)
  | Raise e => Failed e
  end.

Definition field_char (out name : str) (c : N) : scan :=
  if N.eqb c c_lbrace then Failed (ValueError "unexpected '{' in field name")
  else if N.eqb c c_lbracket then Name out (name ++ [c]) true
  else if N.eqb c c_rbrace then emit out name None []
  else if N.eqb c c_colon then Spec out name None [] 1
  else if N.eqb c c_bang then Bang out name
  else Name out (name ++ [c]) false.

Definition step (s : scan) (c : N) : scan :=
  match s with
  | Text out =>
      if N.eqb c c_lbrace then LBrace out
      else if N.eqb c c_rbrace then RBrace out
      else Text (out ++ [c])
  | LBrace out =>
      if N.eqb c c_lbrace then Text (out ++ [c]) else field_char out [] c
  | RBrace out =>
      if N.eqb c c_rbrace then Text (out ++ [c])
      else Failed (ValueError "Single '}' encountered in format string")
  | Name out name true =>
      Name out (name ++ [c]) (negb (N.eqb c c_rbracket))
  | Name out name false => field_char out name c
  | Bang out name => Conv out name c
  | Conv out name cv =>
      if N.eqb c c_rbrace then emit out name (Some cv) []
      else if N.eqb c c_colon then Spec out name (Some cv) [] 1
      else Failed (ValueError "expected ':' after conversion specifier")
  | Spec out name cv spec count =>
      if N.eqb c c_lbrace then Spec out name cv (spec ++ [c]) (S count)
      else if N.eqb c c_rbrace then
        match count with
        | 0%nat | 1%nat => emit out name cv spec
        | S count' => Spec out name cv (spec ++ [c]) count'
        end
      else Spec out name cv (spec ++ [c]) count
  | Failed e => Failed e
  end.

Definition finish (s : scan) : result str :=
  match s with
  | Text out => Ok out
  | LBrace _ => Raise (ValueError "Single '{' encountered in format string")
  | RBrace _ => Raise (ValueError "Single '}' encountered in format string")
  | Name _ _ _ => Raise (ValueError "expected '}' before end of string")
  | Bang _ _ =>
      Raise (ValueError "end of string while looking for conversion specifier")
  | Conv _ _ _ | Spec _ _ _ _ _ =>
      Raise (ValueError "unmatched '{' in format spec")
  | Failed e => Raise e
  end.

(** [template.format] applied to the keyword arguments *)
Definition format (template : str) : result str :=
  finish (fold_left step template (Text [])).

End WithArguments.

End Format.

(** ** The analysis prompt (lines 50-99) *)

Definition unlines (ls : list string) : str :=
  concat (List.map (fun l => lit l ++ [10%N]) ls).

Definition CONTRACT_ANALYSIS_PROMPT : str :=
  unlines ([
    "You are an expert construction contract analyst specializing in identifying risks, red flags, and issues in construction contracts. ";
    EmptyString;
    "Analyze the following construction contract and provide a comprehensive analysis focusing on:";
    EmptyString;
    "1. **Critical Issues** - Must be resolved before signing (missing GMP, undefined dates, lack of bonds)";
    "2. **Warnings** - Items requiring negotiation or clarification (high markups, unfavorable terms, vague language)";
    "3. **Informational** - Items to be aware of (standard clauses, best practices, recommendations)";
    EmptyString;
    "For each issue found, provide:";
    "- Category (Payment Terms, Timeline, Insurance, Scope, Risk Allocation, etc.)";
    "- Severity (critical, warning, informational)";
    "- Specific issue description";
    "- Exact location in contract (Article, Section)";
    "- Recommendation for project manager";
    EmptyString;
    "Focus on common construction contract red flags:";
    "- Incomplete or TBD pricing/dates";
    "- Missing or inadequate bonds/insurance";
    "- Unclear scope definition";
    "- Unfavorable payment terms";
    "- Weak change order provisions";
    "- High liquidated damages without caps";
    "- Vague completion criteria";
    "- Missing exhibits or schedules";
    "- Unbalanced risk allocation";
    "- Problematic dispute resolution terms";
    EmptyString;
    "Format your response as a JSON object with this structure:";
    "{";
    ("  " ++ dq ++ "summary" ++ dq ++ ": {");
    ("    " ++ dq ++ "total_issues" ++ dq ++ ": <number>,");
    ("    " ++ dq ++ "critical" ++ dq ++ ": <number>,");
    ("    " ++ dq ++ "warning" ++ dq ++ ": <number>,");
    ("    " ++ dq ++ "informational" ++ dq ++ ": <number>");
    "  },";
    ("  " ++ dq ++ "findings" ++ dq ++ ": [");
    "    {";
    ("      " ++ dq ++ "category" ++ dq ++ ": " ++ dq ++ "<category>" ++ dq ++ ",");
    ("      " ++ dq ++ "severity" ++ dq ++ ": " ++ dq ++ "<critical|warning|informational>" ++ dq ++ ",");
    ("      " ++ dq ++ "issue" ++ dq ++ ": " ++ dq ++ "<brief title>" ++ dq ++ ",");
    ("      " ++ dq ++ "details" ++ dq ++ ": " ++ dq ++ "<detailed explanation>" ++ dq ++ ",");
    ("      " ++ dq ++ "location" ++ dq ++ ": " ++ dq ++ "<Article X, Section Y>" ++ dq ++ ",");
    ("      " ++ dq ++ "recommendation" ++ dq ++ ": " ++ dq ++ "<action to take>" ++ dq);
    "    }";
    "  ]";
    "}";
    EmptyString;
    "CONTRACT TEXT:";
    "{contract_text}"
  ])%string.

(** [CONTRACT_ANALYSIS_PROMPT.format(contract_text=contract_text)] *)
Definition compile_prompt (format_field : str -> str -> option N -> str -> result str)
    (contract_text : str) : result str :=
  Format.format [(lit "contract_text", contract_text)] format_field
    CONTRACT_ANALYSIS_PROMPT.

(** ** Data model

    The parsed response is a dict read at fixed keys; it is kept as a
    record with those keys as fields. *)

Record Finding := {
  category : str;
  severity : str;
  issue : str;
  details : str;
  location : str;
  recommendation : str
}.

Record Summary := {
  total_issues : Z;
  critical : Z;
  warning : Z;
  informational : Z
}.

Record AnalysisResult := {
  summary : Summary;
  findings : list Finding
}.

(** What [json.loads] returns, as far as the script tells values apart: a
    value that is false under [if results:] (an empty object, array or
    string, zero, false, null), or an object with the keys the page reads.
    A true value without those keys is not covered: the page fails on it
    with an exception no line of the script handles. *)
Inductive parsed :=
| Falsy
| Analysis (results : AnalysisResult).

(** A point in time, as [datetime.now()] returns it; within one run of the
    script every reading of the clock is taken to give the same instant. *)
Definition datetime := Z.

(** [st.session_state] *)
Record SessionState := {
  analysis_results : option AnalysisResult;
  uploaded_file_name : option str;
  analysis_date : option datetime
}.

(** Lines 15-18. *)
Definition initial_session : SessionState :=
  {| analysis_results := None; uploaded_file_name := None; analysis_date := None |}.

(** What a run of the script puts on the page. *)
Inductive ui :=
| st_error (msg : str)
| st_warning (msg : str)
| st_success (msg : str)
| st_info (msg : str)
| st_spinner (msg : str)
| finding_card (color : string) (badge : N) (finding : Finding).

(** ** analyze_contract_with_claude (lines 101-134) *)

Section Analyze.

(** The Anthropic client and the JSON parser are outside the script. *)
Variable client : Type.
Variable Anthropic : str -> result client.
Variable messages_create : client -> string -> Z -> str -> result str.
Variable json_loads : str -> result parsed.
Variable format_field : str -> str -> option N -> str -> result str.
(** [str(e)] *)
Variable exn_str : exn -> str.

Definition analysis_failed (e : exn) : option parsed * list ui :=
  (None, [st_error (lit "Error analyzing contract: " ++ exn_str e)]).

Definition analyze_contract_with_claude (contract_text api_key : str)
  : option parsed * list ui :=
  match Anthropic api_key with
  | Raise e => analysis_failed e
  | Ok c =>
    match compile_prompt format_field contract_text with
    | Raise e => analysis_failed e
    | Ok prompt =>
      match messages_create c "claude-sonnet-4-20250514" 8000 prompt with
      | Raise e => analysis_failed e
      | Ok response_text =>
        match json_loads (find_json_in_response response_text) with
        | Raise e => analysis_failed e
        | Ok results => (Some results, [])
        end
      end
    end
  end.

End Analyze.

(** display_severity_badge (lines 136-143) *)
Definition display_severity_badge (severity : str) : N :=
  if str_eqb severity (lit "critical") then 128308%N
  else if str_eqb severity (lit "warning") then 128993%N
  else if str_eqb severity (lit "informational") then 128309%N
  else 9898%N.

(** ** Input acquisition (lines 148-189) *)

Record UploadedFile := {
  name : str;
  type : str;
  data : list N
}.

Section Input.

(** [bytes.decode('utf-8')] *)
Variable decode_utf8 : list N -> result str.
Variable exn_str : exn -> str.

Definition pdf_advisory : str :=
  [128196%N] ++ lit " PDF parsing requires additional libraries. For demo, please use .txt file or paste text below.".

Definition word_advisory : str :=
  [128221%N] ++ lit " Word document parsing requires additional libraries. For demo, please use .txt file or paste text below.".

Definition decoded (f : UploadedFile) : option str * list ui :=
  match decode_utf8 (data f) with
  | Ok text => (Some text, [])
  | Raise e => (None, [st_error (lit "Error reading file: " ++ exn_str e)])
  end.

(** Lines 166-179: the text of the uploaded file, [None] where the script
    binds [contract_text] to [None]. *)
Definition read_file_content (f : UploadedFile) : option str * list ui :=
  if str_eqb (type f) (lit "text/plain") then decoded f
  else if str_eqb (type f) (lit "application/pdf") then
    (None, [st_warning pdf_advisory])
  else if contains (lit "word") (type f)
          || (endswith (name f) (lit ".doc") || endswith (name f) (lit ".docx")) then
    (None, [st_warning word_advisory])
  else decoded f.

(** Lines 154-189: [contract_text] after the upload and the paste sections.
    [None] also stands for the name being unbound (no upload, nothing
    pasted): the handler treats the two alike. *)
Definition acquire_contract_text (uploaded_file : option UploadedFile)
    (manual_text : str) : option str * list ui :=
  let '(contract_text, out) :=
    match uploaded_file with
    | Some f => read_file_content f
    | None => (None, [])
    end in
  if truthy manual_text then (Some manual_text, out) else (contract_text, out).

End Input.

(** Line 200: the [disabled] argument of the analyze button. *)
Definition analyze_button_disabled (api_key : str)
    (uploaded_file : option UploadedFile) (manual_text : str) : bool :=
  negb (truthy api_key)
  || (negb (bool_decide (is_Some uploaded_file)) && negb (truthy manual_text)).

(** [st.button]: a disabled button cannot be pressed. *)
Definition st_button (disabled pressed : bool) : bool :=
  pressed && negb disabled.

(** ** The analysis handler (lines 207-216) *)

Definition missing_text_error : str :=
  lit "Please upload a valid contract file or paste contract text".

Definition spinner_text : str :=
  [129302%N] ++ lit " AI analyzing contract... This may take 30-60 seconds...".

Definition store_results (st : SessionState) (results : AnalysisResult)
    (now : datetime) : SessionState :=
  {| analysis_results := Some results;
     uploaded_file_name := uploaded_file_name st;
     analysis_date := Some now |}.

(** Line 212, [if results:]: the returned value when it is true. *)
Definition true_results (results : option parsed) : option AnalysisResult :=
  match results with
  | Some (Analysis r) => Some r
  | Some Falsy | None => None
  end.

Definition perform_analysis
    (analyze : str -> str -> option parsed * list ui)
    (now : datetime) (st : SessionState)
    (analyze_button : bool) (api_key : str) (contract_text : option str)
  : SessionState * list ui :=
  if analyze_button && truthy api_key then
    match contract_text with
    | Some text =>
        if truthy text then
          let '(results, out) := analyze text api_key in
          match true_results results with
          | Some r => (store_results st r now, st_spinner spinner_text :: out)
          | None => (st, st_spinner spinner_text :: out)
          end
        else (st, [st_error missing_text_error])
    | None => (st, [st_error missing_text_error])
    end
  else (st, []).

(** ** Presentation (lines 219-315) *)

Definition severity_options : list str :=
  [lit "critical"; lit "warning"; lit "informational"].

(** Lines 258-263: the risk banner. *)
Definition risk_assessment (results : AnalysisResult) : ui :=
  if 0 <? critical (summary results) then
    st_error ([9888%N; 65039%N] ++ lit " **HIGH RISK**: "
              ++ str_of_int (critical (summary results))
              ++ lit " critical issues must be resolved before contract execution")
  else if 3 <? warning (summary results) then
    st_warning ([9888%N; 65039%N] ++ lit " **MODERATE RISK**: "
                ++ str_of_int (warning (summary results))
                ++ lit " warnings require review and potential negotiation")
  else
    st_success ([9989%N] ++ lit " **LOW RISK**: No critical issues found. Review warnings before proceeding.").

(** Line 280. *)
Definition filtered_findings (results : AnalysisResult)
    (severity_filter : list str) : list Finding :=
  List.filter (fun f => str_in (severity f) severity_filter) (findings results).

(** Lines 286-291. *)
Definition severity_color (severity : str) : string :=
  if str_eqb severity (lit "critical") then "red"
  else if str_eqb severity (lit "warning") then "orange"
  else "blue".

Definition render_finding (finding : Finding) : ui :=
  finding_card (severity_color (severity finding))
               (display_severity_badge (severity finding)) finding.

(** Lines 282-315: one card per filtered finding. *)
Definition display_findings (results : AnalysisResult)
    (severity_filter : list str) : list ui :=
  List.map render_finding (filtered_findings results severity_filter).

(** ** Text report (lines 335-358) *)

Section TextReport.

(** [s.upper()] and [d.strftime(fmt)] *)
Variable upper : str -> str.
Variable strftime : datetime -> string -> str.

Definition line (s : str) : str := s ++ [10%N].

Definition file_label (st : SessionState) : str :=
  match uploaded_file_name st with
  | Some n => if truthy n then n else lit "Manual Input"
  | None => lit "Manual Input"
  end.

Definition report_header (now : datetime) (st : SessionState)
    (results : AnalysisResult) : str :=
  line (lit "CONTRACT ANALYSIS REPORT")
  ++ line (lit "Generated: " ++ strftime now "%Y-%m-%d %H:%M:%S")
  ++ line (lit "File: " ++ file_label st)
  ++ line []
  ++ line (lit "SUMMARY")
  ++ line (lit "=======")
  ++ line (lit "Total Issues: " ++ str_of_int (total_issues (summary results)))
  ++ line (lit "Critical: " ++ str_of_int (critical (summary results)))
  ++ line (lit "Warnings: " ++ str_of_int (warning (summary results)))
  ++ line (lit "Informational: " ++ str_of_int (informational (summary results)))
  ++ line []
  ++ line (lit "DETAILED FINDINGS")
  ++ line (lit "=================")
  ++ line [].

Definition report_entry (idx : Z) (finding : Finding) : str :=
  line []
  ++ line (str_of_int idx ++ lit ". [" ++ upper (severity finding) ++ lit "] "
           ++ issue finding)
  ++ line (lit "   Category: " ++ category finding)
  ++ line (lit "   Details: " ++ details finding)
  ++ line (lit "   Location: " ++ location finding)
  ++ line (lit "   Recommendation: " ++ recommendation finding)
  ++ line [].

(** The loop over [enumerate(results['findings'], idx)] with [report +=]. *)
Fixpoint report_loop (fs : list Finding) (idx : Z) (report : str) : str :=
  match fs with
  | [] => report
  | finding :: fs' => report_loop fs' (idx + 1) (report ++ report_entry idx finding)
  end.

Definition text_report (now : datetime) (st : SessionState)
    (results : AnalysisResult) : str :=
  report_loop (findings results) 1 (report_header now st results).

End TextReport.

(** Lines 368-371. *)
Definition reset_session (st : SessionState) : SessionState :=
  {| analysis_results := None;
     uploaded_file_name := None;
     analysis_date := analysis_date st |}.

(** ** The upload echo (lines 157-163) *)

(** [s.split(sep)] for a separator of one character. *)
Fixpoint split (sep : N) (s : str) : list str :=
  match s with
  | [] => [[]]
  | c :: s' =>
      if N.eqb c sep then [] :: split sep s'
      else match split sep s' with
           | seg :: segs => (c :: seg) :: segs
           | [] => [[c]]
           end
  end.

(** [l[-1]]; the lists it is used on are not empty. *)
Definition last_item (l : list str) : str := List.last l [].

Definition c_slash : N := 47.

Section UploadEcho.

Variable upper : str -> str.

(** Line 159. *)
Definition upload_echo (f : UploadedFile) : ui :=
  st_success ([9989%N] ++ lit " Uploaded: " ++ name f).

(** Line 163: the value of the Type metric,
    [uploaded_file.type.split('/')[-1].upper()]. *)
Definition type_label (f : UploadedFile) : str :=
  upper (last_item (split c_slash (type f))).

End UploadEcho.

(** ** One run of the script *)

Record Inputs := {
  in_api_key : str;
  in_uploaded_file : option UploadedFile;
  in_manual_text : str;
  in_analyze_pressed : bool;
  in_severity_filter : list str;
  in_reset_pressed : bool;
  in_now : datetime
}.

(** The page of a run: the messages, spinner and finding cards in the
    order the script writes them ([shown]; titles, dividers, metrics and
    download buttons are not listed), whether the analyze button is
    disabled, the findings displayed and the text report offered. *)
Record Page := {
  shown : list ui;
  analyze_disabled : bool;
  findings_shown : list Finding;
  report : option str
}.

Section Script.

Variable client : Type.
Variable Anthropic : str -> result client.
Variable messages_create : client -> string -> Z -> str -> result str.
Variable json_loads : str -> result parsed.
Variable format_field : str -> str -> option N -> str -> result str.
Variable exn_str : exn -> str.
Variable decode_utf8 : list N -> result str.
Variable upper : str -> str.
Variable strftime : datetime -> string -> str.

Definition key_hint : list ui :=
  [st_info ([128072%N] ++ lit " Please enter your Anthropic API key in the sidebar to begin analysis")].

Definition run (inp : Inputs) (st : SessionState) : SessionState * Page :=
  let st1 :=
    match in_uploaded_file inp with
    | Some f => {| analysis_results := analysis_results st;
                   uploaded_file_name := Some (name f);
                   analysis_date := analysis_date st |}
    | None => st
    end in
  let out0 :=
    match in_uploaded_file inp with
    | Some f => [upload_echo f]
    | None => []
    end in
  let '(contract_text, out1) :=
    acquire_contract_text decode_utf8 exn_str (in_uploaded_file inp) (in_manual_text inp) in
  let disabled :=
    analyze_button_disabled (in_api_key inp) (in_uploaded_file inp) (in_manual_text inp) in
  let analyze_button := st_button disabled (in_analyze_pressed inp) in
  let out2 := if truthy (in_api_key inp) then [] else key_hint in
  let '(st2, out3) :=
    perform_analysis
      (analyze_contract_with_claude client Anthropic messages_create json_loads
         format_field exn_str)
      (in_now inp) st1 analyze_button (in_api_key inp) contract_text in
  match analysis_results st2 with
  | Some results =>
      (if in_reset_pressed inp then reset_session st2 else st2,
       {| shown := out0 ++ out1 ++ out2 ++ out3 ++ risk_assessment results
                   :: display_findings results (in_severity_filter inp);
          analyze_disabled := disabled;
          findings_shown := filtered_findings results (in_severity_filter inp);
          report := Some (text_report upper strftime (in_now inp) st2 results) |})
  | None =>
      (st2, {| shown := out0 ++ out1 ++ out2 ++ out3;
               analyze_disabled := disabled;
               findings_shown := [];
               report := None |})
  end.

End Script.

(** * Specification vocabulary *)

(** ** Positions of a substring *)

(** [sub] occurs in [s] at index [k]. *)
Definition occurs_at (sub s : str) (k : nat) : Prop :=
  (k <= length s)%nat /\ sub `prefix_of` drop k s.

(** [k] is the index of the first occurrence of [sub] in [s] at or after
    [start]. *)
Definition first_occurrence (sub s : str) (start k : nat) : Prop :=
  (start <= k)%nat /\ occurs_at sub s k /\
  forall j, (start <= j < k)%nat -> ~ occurs_at sub s j.

(** [sub] does not occur in [s] at or after [start]. *)
Definition no_occurrence (sub s : str) (start : nat) : Prop :=
  forall j, (start <= j)%nat -> ~ occurs_at sub s j.

(** The characters of [s] from index [a] up to, not including, index [b]. *)
Definition between (s : str) (a b : nat) : str :=
  take (b - a) (drop a s).


(** The name of the first replacement field of the template: the text
    between the opening brace of the JSON example and the first colon. *)
Definition summary_field : str := lit (nl ++ "  " ++ dq ++ "summary" ++ dq).

(** The risk level a banner stands for. *)
Inductive risk_level := High | Moderate | Low.

Definition banner_level (u : ui) : option risk_level :=
  match u with
  | st_error _ => Some High
  | st_warning _ => Some Moderate
  | st_success _ => Some Low
  | _ => None
  end.

(** Line 208: [contract_text] is bound and true. *)
Definition text_available (contract_text : option str) : bool :=
  match contract_text with
  | Some text => truthy text
  | None => false
  end.

(** A result of which only the two counts matter. *)
Definition counts_only (c w : Z) : AnalysisResult :=
  {| summary := {| total_issues := 0; critical := c; warning := w; informational := 0 |};
     findings := [] |}.

(** The widget values of a run in which neither button is pressed. *)
Definition viewing (api_key : str) (uploaded_file : option UploadedFile)
    (manual_text : str) (severity_filter : list str) (now : datetime) : Inputs :=
  {| in_api_key := api_key;
     in_uploaded_file := uploaded_file;
     in_manual_text := manual_text;
     in_analyze_pressed := false;
     in_severity_filter := severity_filter;
     in_reset_pressed := false;
     in_now := now |}.

Definition with_filter (severity_filter : list str) (inp : Inputs) : Inputs :=
  {| in_api_key := in_api_key inp;
     in_uploaded_file := in_uploaded_file inp;
     in_manual_text := in_manual_text inp;
     in_analyze_pressed := in_analyze_pressed inp;
     in_severity_filter := severity_filter;
     in_reset_pressed := in_reset_pressed inp;
     in_now := in_now inp |}.

(** ** Stand-ins for the services outside the script, used to run it on
    concrete inputs *)

Module Sample.

(** UTF-8 decoding of ASCII bytes; other bytes are rejected. *)
Definition decode_utf8 (bytes : list N) : result str :=
  if forallb (fun b => (b <? 128)%N) bytes then Ok bytes
  else Raise (Exception (lit "'utf-8' codec can't decode bytes")).

Definition exn_str (e : exn) : str :=
  match e with
  | KeyError key => key
  | IndexError _ => lit "Replacement index out of range for positional args tuple"
  | ValueError msg => lit msg
  | Exception msg => msg
  end.

(** A field is written as is when it has no accessor, conversion or format
    specification. *)
Definition format_field (v rest : str) (conversion : option N) (spec : str)
  : result str :=
  match rest, conversion, spec with
  | [], None, [] => Ok v
  | _, _, _ => Raise (ValueError "Invalid format specifier")
  end.

(** ASCII letters to upper case. *)
Definition upper (s : str) : str :=
  List.map (fun c => if ((97 <=? c) && (c <=? 122))%N then (c - 32)%N else c) s.

Definition strftime (d : datetime) (fmt : string) : str :=
  lit "2025-01-01 00:00:00".

(** A service that is down. *)
Definition Anthropic (api_key : str) : result unit := Ok tt.

Definition messages_create (c : unit) (model : string) (max_tokens : Z)
    (prompt : str) : result str :=
  Raise (Exception (lit "Connection error.")).

Definition json_loads (s : str) : result parsed :=
  Raise (Exception (lit "Expecting value: line 1 column 1 (char 0)")).

Definition finding (sev title : string) : Finding :=
  {| category := lit "Payment Terms";
     severity := lit sev;
     issue := lit title;
     details := lit "...";
     location := lit "Article 4";
     recommendation := lit "Add GMP clause" |}.

Definition results : AnalysisResult :=
  {| summary := {| total_issues := 3; critical := 1; warning := 1; informational := 0 |};
     findings := [finding "critical" "No GMP"; finding "urgent" "Odd tier";
                  finding "warning" "High markup"] |}.

Definition session : SessionState :=
  {| analysis_results := Some results;
     uploaded_file_name := Some (lit "contract.txt");
     analysis_date := Some 0 |}.

Definition pdf : UploadedFile :=
  {| name := lit "contract.pdf"; type := lit "application/pdf"; data := [37; 80; 68; 70]%N |}.

(** An analysis that fails with a service error, and one that fails on the
    JSON of the reply: what the [except] branch returns. *)
Definition service_down (contract_text api_key : str)
  : option parsed * list ui :=
  analysis_failed exn_str (Exception (lit "Connection error.")).


(** Completion texts. *)
Definition fenced_reply : str :=
  lit ("Result: ```json" ++ nl ++ "{}" ++ nl ++ "``` done").

Definition json_object : string :=
  "{" ++ dq ++ "summary" ++ dq ++ ": {" ++ dq ++ "total_issues" ++ dq ++ ": 0, "
  ++ dq ++ "critical" ++ dq ++ ": 0, " ++ dq ++ "warning" ++ dq ++ ": 0, "
  ++ dq ++ "informational" ++ dq ++ ": 0}, " ++ dq ++ "findings" ++ dq ++ ": []}".

(** An opening fence that is never closed. *)
Definition unclosed_reply : str := lit ("```json" ++ nl ++ json_object).

Definition unclosed_bare_reply : str := lit ("```" ++ nl ++ json_object).


End Sample.

(** ** Further vocabulary *)

(** Every character of [s] is whitespace. *)
Definition all_space (s : str) : bool := forallb isspace s.

(** [s] does not begin with whitespace. *)
Definition starts_clean (s : str) : bool :=
  match s with
  | c :: _ => negb (isspace c)
  | [] => true
  end.

(** [s] neither begins nor ends with whitespace. *)
Definition trimmed (s : str) : bool :=
  starts_clean s && starts_clean (reverse s).

(** [t] is a contiguous part of [s]. *)
Definition part_of (t s : str) : Prop :=
  exists pre post, s = pre ++ t ++ post.

(** [t] has no brace. *)
Definition brace_free (t : str) : bool :=
  forallb (fun c => negb (N.eqb c Format.c_lbrace) && negb (N.eqb c Format.c_rbrace)) t.

(** [t] with every brace doubled, the way a literal brace is written in a
    format string. *)
Definition escape_braces (t : str) : str :=
  flat_map (fun c => if N.eqb c Format.c_lbrace || N.eqb c Format.c_rbrace
                     then [c; c] else [c]) t.

(** The severity is one of the three tiers. *)
Definition known_severity (f : Finding) : bool :=
  str_in (severity f) severity_options.

Definition with_findings (fs : list Finding) (results : AnalysisResult)
  : AnalysisResult :=
  {| summary := summary results; findings := fs |}.

Definition with_pressed (pressed : bool) (inp : Inputs) : Inputs :=
  {| in_api_key := in_api_key inp;
     in_uploaded_file := in_uploaded_file inp;
     in_manual_text := in_manual_text inp;
     in_analyze_pressed := pressed;
     in_severity_filter := in_severity_filter inp;
     in_reset_pressed := in_reset_pressed inp;
     in_now := in_now inp |}.

(** The session after a sequence of runs, one per interaction of the
    user. *)
Definition run_all (client : Type) Anthropic messages_create json_loads
    format_field exn_str decode_utf8 upper strftime
    (inputs : list Inputs) (st : SessionState) : SessionState :=
  fold_left
    (fun st inp =>
       fst (run client Anthropic messages_create json_loads format_field exn_str
              decode_utf8 upper strftime inp st))
    inputs st.

(** More values to run the script on. *)
Module Demo.

Definition bare_reply : str :=
  lit ("Here you go:" ++ nl ++ "```" ++ nl ++ "[1, 2]" ++ nl ++ "```" ++ nl ++ "Bye.").

Definition two_blocks : str :=
  lit ("``` a ``` then ```json" ++ nl ++ "{}" ++ nl ++ "``` and ```json [] ```").

(** A bare fence that is never closed. *)
Definition unclosed_bare : str := lit (" ```" ++ nl ++ "[1, 2]").

Definition text_file : UploadedFile :=
  {| name := lit "contract.docx"; type := lit "text/plain";
     data := [65; 114; 116; 46; 32; 49]%N |}.

Definition binary_file : UploadedFile :=
  {| name := lit "scan.txt"; type := lit "text/plain"; data := [255; 254; 0]%N |}.

Definition word_file : UploadedFile :=
  {| name := lit "contract.docx"; type := lit "application/octet-stream";
     data := [80; 75; 3; 4]%N |}.

Definition known_results : AnalysisResult :=
  {| summary := {| total_issues := 2; critical := 1; warning := 0; informational := 1 |};
     findings := [Sample.finding "critical" "No GMP";
                  Sample.finding "informational" "Standard clause"] |}.

End Demo.

(** * Properties *)

(** ** Occurrences of a substring *)

Lemma startswith_prefix sub s : startswith sub s = true <-> sub `prefix_of` s.
Proof.
  revert s. induction sub as [|a sub IH]; intros s; simpl.
  - split; [intros _; apply prefix_nil | reflexivity].
  - destruct s as [|b s].
    + split; [discriminate | intros H; apply prefix_nil_inv in H; discriminate].
    + destruct (N.eqb_spec a b) as [->|Hne].
      * rewrite IH. split; [apply prefix_cons | apply prefix_cons_inv_2].
      * split; [discriminate | intros H; apply prefix_cons_inv_1 in H; contradiction].
Qed.

Lemma startswith_false sub s : startswith sub s = false <-> ~ sub `prefix_of` s.
Proof.
  rewrite <- startswith_prefix. destruct (startswith sub s); intuition congruence.
Qed.

Lemma occurs_at_cons sub c s k :
  occurs_at sub (c :: s) (S k) <-> occurs_at sub s k.
Proof. unfold occurs_at. simpl. split; intros [? ?]; split; auto; lia. Qed.

Lemma occurs_at_drop sub s n k :
  (n <= length s)%nat ->
  occurs_at sub (drop n s) k <-> occurs_at sub s (n + k).
Proof.
  intros Hn. unfold occurs_at. rewrite drop_drop, length_drop.
  split; intros [? ?]; split; auto; lia.
Qed.

Lemma find_at_first sub s i k :
  first_occurrence sub s 0 k -> find_at sub s i = Z.of_nat (i + k).
Proof.
  revert s i. induction k as [|k IH]; intros s i (_ & Hocc & Hmin).
  - destruct Hocc as [_ Hp]. rewrite drop_0 in Hp.
    apply startswith_prefix in Hp.
    destruct s; simpl in *; rewrite Hp; f_equal; lia.
  - assert (H0 : startswith sub s = false).
    { apply startswith_false. intros Hp. apply (Hmin 0%nat); [lia|].
      split; [lia | now rewrite drop_0]. }
    destruct s as [|c s].
    + destruct Hocc as [Hle _]. simpl in Hle. lia.
    + simpl find_at. rewrite H0.
      rewrite (IH s (S i)).
      * f_equal. lia.
      * split; [lia|]. split; [now apply occurs_at_cons in Hocc|].
        intros j Hj Hoj. apply (Hmin (S j)); [lia|]. now apply occurs_at_cons.
Qed.

Lemma find_at_none sub s i :
  no_occurrence sub s 0 -> find_at sub s i = -1.
Proof.
  revert i. induction s as [|c s IH]; intros i Hno.
  - assert (H0 : startswith sub [] = false).
    { apply startswith_false. intros Hp. apply (Hno 0%nat); [lia|].
      split; [simpl; lia | now rewrite drop_0]. }
    simpl. now rewrite H0.
  - assert (H0 : startswith sub (c :: s) = false).
    { apply startswith_false. intros Hp. apply (Hno 0%nat); [lia|].
      split; [simpl; lia | now rewrite drop_0]. }
    simpl find_at. rewrite H0. apply IH.
    intros j _ Hoj. apply (Hno (S j)); [lia|]. now apply occurs_at_cons.
Qed.

Lemma clamp_id n i : 0 <= i <= n -> clamp n i = i.
Proof. intros H. unfold clamp. destruct (Z.ltb_spec i 0); lia. Qed.

(** [find] returns the first occurrence at or after [start]. *)
Lemma find_first sub s start k :
  first_occurrence sub s start k -> find s sub (Z.of_nat start) = Z.of_nat k.
Proof.
  intros (Hle & Hocc & Hmin).
  assert (Hk : (k <= length s)%nat) by apply Hocc.
  unfold find, len.
  destruct (Z.ltb_spec (Z.of_nat (length s)) (Z.of_nat start)); [lia|].
  rewrite clamp_id by lia. rewrite Nat2Z.id.
  rewrite (find_at_first sub (drop start s) start (k - start)).
  - f_equal. lia.
  - split; [lia|]. split.
    + apply occurs_at_drop; [lia|]. now replace (start + (k - start))%nat with k by lia.
    + intros j Hj Hoj. apply occurs_at_drop in Hoj; [|lia].
      apply (Hmin (start + j)%nat); [lia | assumption].
Qed.

(** [find] returns -1 when there is no occurrence at or after [start]. *)
Lemma find_none sub s start :
  no_occurrence sub s start -> find s sub (Z.of_nat start) = -1.
Proof.
  intros Hno. unfold find, len.
  destruct (Z.ltb_spec (Z.of_nat (length s)) (Z.of_nat start)); [reflexivity|].
  rewrite clamp_id by lia. rewrite Nat2Z.id.
  apply find_at_none. intros j _ Hoj.
  apply occurs_at_drop in Hoj; [|lia]. apply (Hno (start + j)%nat); [lia | assumption].
Qed.

(** Every scan ends in one of the two ways. *)
Lemma find_at_result sub s i :
  (find_at sub s i = -1 /\ no_occurrence sub s 0) \/
  (exists k, find_at sub s i = Z.of_nat (i + k) /\ first_occurrence sub s 0 k).
Proof.
  revert i. induction s as [|c s IH]; intros i.
  - destruct (startswith sub []) eqn:H0.
    + right. exists 0%nat. split; [erewrite find_at_first; eauto|];
        (split; [lia|]; split; [|intros; lia]);
        (split; [simpl; lia | rewrite drop_0; now apply startswith_prefix]).
    + left. simpl. rewrite H0. split; [reflexivity|].
      intros j _ [Hj Hp]. simpl in Hj. assert (j = 0%nat) as -> by lia.
      rewrite drop_0 in Hp. now apply startswith_false in H0.
  - destruct (startswith sub (c :: s)) eqn:H0.
    + right. exists 0%nat. split; [erewrite find_at_first; eauto|];
        (split; [lia|]; split; [|intros; lia]);
        (split; [simpl; lia | rewrite drop_0; now apply startswith_prefix]).
    + simpl find_at. rewrite H0. destruct (IH (S i)) as [[Hr Hno]|(k & Hr & Hf)].
      * left. split; [assumption|]. intros [|j] _ Hoj.
        -- destruct Hoj as [_ Hp]. rewrite drop_0 in Hp. now apply startswith_false in H0.
        -- apply occurs_at_cons in Hoj. now apply (Hno j); [lia|].
      * right. exists (S k). split; [rewrite Hr; f_equal; lia|].
        destruct Hf as (_ & Hocc & Hmin). split; [lia|]. split.
        -- now apply occurs_at_cons.
        -- intros [|j] Hj Hoj.
           ++ destruct Hoj as [_ Hp]. rewrite drop_0 in Hp. now apply startswith_false in H0.
           ++ apply occurs_at_cons in Hoj. apply (Hmin j); [lia | assumption].
Qed.

(** A non-negative result of [find] is the first occurrence. *)
Lemma find_first_inv sub s start k :
  (start <= length s)%nat ->
  find s sub (Z.of_nat start) = Z.of_nat k -> first_occurrence sub s start k.
Proof.
  intros Hs. unfold find, len.
  destruct (Z.ltb_spec (Z.of_nat (length s)) (Z.of_nat start)); [lia|].
  rewrite clamp_id by lia. rewrite Nat2Z.id.
  destruct (find_at_result sub (drop start s) start) as [[Hr _]|(k' & Hr & Hf)];
    rewrite Hr; [lia|]. intros Hk. assert (k = start + k')%nat as -> by lia.
  destruct Hf as (_ & Hocc & Hmin). split; [lia|]. split.
  - now apply occurs_at_drop in Hocc.
  - intros j Hj Hoj. apply (Hmin (j - start)%nat); [lia|].
    apply occurs_at_drop; [lia|]. now replace (start + (j - start))%nat with j by lia.
Qed.

(** A result of -1 means there is no occurrence. *)
Lemma find_none_inv sub s start :
  (start <= length s)%nat ->
  find s sub (Z.of_nat start) = -1 -> no_occurrence sub s start.
Proof.
  intros Hs. unfold find, len.
  destruct (Z.ltb_spec (Z.of_nat (length s)) (Z.of_nat start)); [lia|].
  rewrite clamp_id by lia. rewrite Nat2Z.id.
  destruct (find_at_result sub (drop start s) start) as [[_ Hno]|(k' & Hr & _)].
  - intros _ j Hj Hoj. apply (Hno (j - start)%nat); [lia|].
    apply occurs_at_drop; [lia|]. now replace (start + (j - start))%nat with j by lia.
  - rewrite Hr. lia.
Qed.

Lemma contains_first sub s k : first_occurrence sub s 0 k -> contains sub s = true.
Proof.
  intros H. unfold contains. change 0 with (Z.of_nat 0).
  rewrite (find_first _ _ _ _ H).
  destruct (Z.of_nat k =? -1) eqn:E; [apply Z.eqb_eq in E; exfalso; lia | reflexivity].
Qed.

Lemma contains_none sub s : no_occurrence sub s 0 -> contains sub s = false.
Proof.
  intros H. unfold contains. change 0 with (Z.of_nat 0).
  now rewrite (find_none _ _ _ H).
Qed.

Lemma occurs_at_length sub s k : occurs_at sub s k -> (k + length sub <= length s)%nat.
Proof.
  intros [Hk Hp]. apply prefix_length in Hp. rewrite length_drop in Hp. lia.
Qed.

(** [s[a:b]] for indices in range is the text between them. *)
Lemma slice_between s (a b : nat) :
  (a <= length s)%nat -> (b <= length s)%nat ->
  slice s (Z.of_nat a) (Z.of_nat b) = between s a b.
Proof.
  intros Ha Hb. unfold slice, between, len.
  rewrite !clamp_id by lia. rewrite Nat2Z.id. f_equal. lia.
Qed.

(** [s[a:-1]]: everything from [a] on, except the last character. *)
Lemma slice_to_minus_one s (a : nat) :
  (a <= length s)%nat ->
  slice s (Z.of_nat a) (-1) = between s a (length s - 1).
Proof.
  intros Ha. unfold slice, between, len.
  rewrite (clamp_id _ (Z.of_nat a)) by lia.
  unfold clamp. change (-1 <? 0) with true. cbv iota.
  rewrite Nat2Z.id. f_equal. lia.
Qed.

(** ** Equality and membership of strings *)

Lemma str_eqb_eq a b : str_eqb a b = true <-> a = b.
Proof.
  revert b. induction a as [|x a IH]; intros [|y b]; simpl; try easy.
  rewrite andb_true_iff, N.eqb_eq, IH. split; [intros [-> ->]; reflexivity|].
  intros H. injection H; auto.
Qed.

Lemma str_in_spec x (l : list str) : str_in x l = true <-> x ∈ l.
Proof.
  unfold str_in. induction l as [|y l IH]; simpl.
  - split; [discriminate | intros H; inversion H].
  - rewrite orb_true_iff, str_eqb_eq, IH, elem_of_cons. reflexivity.
Qed.

(** ** Response extraction *)

(** C3.  A completion text that contains the tagged fence: with [i] the
    index of its first occurrence and [j] the index of the next fence after
    the tag, the text handed to the JSON parser is exactly the characters
    between the end of the tag and that fence, with surrounding whitespace
    trimmed. *)
Theorem tagged_fence_extraction (text : str) (i j : nat) :
  first_occurrence fence_json text 0 i ->
  first_occurrence fence text (i + 7) j ->
  find_json_in_response text = strip (between text (i + 7) j).
Proof.
  intros Hi Hj. unfold find_json_in_response.
  rewrite (contains_first _ _ _ Hi).
  change (find text fence_json 0) with (find text fence_json (Z.of_nat 0)).
  rewrite (find_first _ _ _ _ Hi).
  replace (Z.of_nat i + 7) with (Z.of_nat (i + 7)) by lia.
  rewrite (find_first _ _ _ _ Hj). cbv zeta.
  destruct Hj as (Hij & [Hj _] & _).
  rewrite slice_between by lia. reflexivity.
Qed.

Lemma tagged_fence_extraction_witness :
  find_json_in_response Sample.fenced_reply
  = strip (between Sample.fenced_reply (8 + 7) 19).
Proof.
  apply (tagged_fence_extraction Sample.fenced_reply 8 19);
    apply find_first_inv; try (vm_compute; lia); reflexivity.
Defined.

Example fenced_reply_candidate :
  find_json_in_response Sample.fenced_reply = lit "{}".
Proof. reflexivity. Qed.

(** X4.  The bare fence behaves the same way when no tagged fence is
    present: the candidate is the trimmed text between the first fence and
    the next one. *)
Lemma bare_fence_extraction (text : str) (i j : nat) :
  no_occurrence fence_json text 0 ->
  first_occurrence fence text 0 i ->
  first_occurrence fence text (i + 3) j ->
  find_json_in_response text = strip (between text (i + 3) j).
Proof.
  intros Hno Hi Hj. unfold find_json_in_response.
  rewrite (contains_none _ _ Hno), (contains_first _ _ _ Hi).
  change (find text fence 0) with (find text fence (Z.of_nat 0)).
  rewrite (find_first _ _ _ _ Hi).
  replace (Z.of_nat i + 3) with (Z.of_nat (i + 3)) by lia.
  rewrite (find_first _ _ _ _ Hj). cbv zeta.
  destruct Hj as (Hij & [Hj _] & _).
  rewrite slice_between by lia. reflexivity.
Qed.

(** X5.  With no closing fence [find] answers -1, and the slice
    [json_start:-1] leaves out the last character of the text: the candidate
    is the trimmed text after the tag up to, not including, the last
    character. *)
Lemma unclosed_tagged_fence (text : str) (i : nat) :
  first_occurrence fence_json text 0 i ->
  no_occurrence fence text (i + 7) ->
  find_json_in_response text = strip (between text (i + 7) (length text - 1)).
Proof.
  intros Hi Hno. unfold find_json_in_response.
  rewrite (contains_first _ _ _ Hi).
  change (find text fence_json 0) with (find text fence_json (Z.of_nat 0)).
  rewrite (find_first _ _ _ _ Hi).
  replace (Z.of_nat i + 7) with (Z.of_nat (i + 7)) by lia.
  rewrite (find_none _ _ _ Hno). cbv zeta.
  destruct Hi as (_ & Hocc & _). apply occurs_at_length in Hocc.
  change (length fence_json) with 7%nat in Hocc.
  rewrite slice_to_minus_one by lia. reflexivity.
Qed.

(** X7.  The same on the bare path: an opening fence without a closing one
    gives the trimmed text after it without the last character. *)
Lemma unclosed_bare_fence (text : str) (i : nat) :
  no_occurrence fence_json text 0 ->
  first_occurrence fence text 0 i ->
  no_occurrence fence text (i + 3) ->
  find_json_in_response text = strip (between text (i + 3) (length text - 1)).
Proof.
  intros Hnj Hi Hno. unfold find_json_in_response.
  rewrite (contains_none _ _ Hnj), (contains_first _ _ _ Hi).
  change (find text fence 0) with (find text fence (Z.of_nat 0)).
  rewrite (find_first _ _ _ _ Hi).
  replace (Z.of_nat i + 3) with (Z.of_nat (i + 3)) by lia.
  rewrite (find_none _ _ _ Hno). cbv zeta.
  destruct Hi as (_ & Hocc & _). apply occurs_at_length in Hocc.
  change (length fence) with 3%nat in Hocc.
  rewrite slice_to_minus_one by lia. reflexivity.
Qed.

Example unclosed_bare_fence_candidate :
  find_json_in_response Sample.unclosed_bare_reply
  = removelast (lit Sample.json_object).
Proof. reflexivity. Qed.

Lemma fence_prefix_of_tag : fence `prefix_of` fence_json.
Proof. exists (lit "json"). reflexivity. Qed.

Lemma no_fence_no_tag text start :
  no_occurrence fence text start -> no_occurrence fence_json text start.
Proof.
  intros Hno j Hj [Hle Hp]. apply (Hno j Hj). split; [assumption|].
  etransitivity; [apply fence_prefix_of_tag | exact Hp].
Qed.

(** Without any fence the text goes to the parser as it is. *)
Lemma unfenced_text_unchanged (text : str) :
  no_occurrence fence text 0 -> find_json_in_response text = text.
Proof.
  intros Hno. unfold find_json_in_response.
  rewrite (contains_none _ _ (no_fence_no_tag _ _ Hno)).
  now rewrite (contains_none _ _ Hno).
Qed.


(** ** Prompt compilation *)

(** [str.format] on templates whose braces are escaped. *)
Example format_escaped_braces :
  Format.format [(lit "contract_text", lit "Art. 1")] Sample.format_field
    (lit "{{x}} CONTRACT TEXT: {contract_text}!")
  = Ok (lit "{x} CONTRACT TEXT: Art. 1!").
Proof. reflexivity. Qed.

Example format_single_brace :
  Format.format [(lit "contract_text", lit "Art. 1")] Sample.format_field (lit "a } b")
  = Raise (ValueError "Single '}' encountered in format string").
Proof. reflexivity. Qed.

Example format_unknown_name :
  Format.format [(lit "contract_text", lit "Art. 1")] Sample.format_field
    (lit "{contract_text} {other}")
  = Raise (KeyError (lit "other")).
Proof. reflexivity. Qed.

(** A field named by digits is a positional index, in any decimal digit
    system; an index that overflows is reported where it overflows. *)
Example format_numbered_field :
  Format.format [(lit "contract_text", lit "Art. 1")] Sample.format_field
    (lit "{12}")
  = Raise (IndexError 12)
  /\ Format.format [(lit "contract_text", lit "Art. 1")] Sample.format_field
       [123; 1633; 2408; 125]%N
     = Raise (IndexError 12)
  /\ Format.format [(lit "contract_text", lit "Art. 1")] Sample.format_field
       (lit "{99999999999999999999x}")
     = Raise (ValueError "Too many decimal digits in format string")
  /\ Format.format [(lit "contract_text", lit "Art. 1")] Sample.format_field
       (lit "{9x}")
     = Raise (KeyError (lit "9x")).
Proof. repeat split; reflexivity. Qed.

(** C1.  Formatting the analysis prompt fails for every contract text and
    every way the argument formats itself: the braces of the JSON example
    are read as a replacement field whose name is not an argument, and
    [KeyError] is raised. *)
Theorem compile_prompt_raises
    (format_field : str -> str -> option N -> str -> result str)
    (contract_text : str) :
  compile_prompt format_field contract_text = Raise (KeyError summary_field).
Proof. vm_compute. reflexivity. Qed.

(** Hence no analysis ever returns a result. *)
Lemma analyze_returns_none (client : Type) Anthropic messages_create json_loads
    format_field exn_str (contract_text api_key : str) :
  fst (analyze_contract_with_claude client Anthropic messages_create json_loads
         format_field exn_str contract_text api_key) = None.
Proof.
  unfold analyze_contract_with_claude.
  destruct (Anthropic api_key); [|reflexivity].
  vm_compute. reflexivity.
Qed.

(** ** The analysis handler *)


(** ** Input acquisition and the analyze button *)

(** A PDF upload yields no text, only the advisory. *)
Lemma pdf_yields_no_text decode_utf8 exn_str (f : UploadedFile) :
  type f = lit "application/pdf" ->
  read_file_content decode_utf8 exn_str f = (None, [st_warning pdf_advisory]).
Proof. intros H. unfold read_file_content. rewrite H. reflexivity. Qed.

(** A Word upload, recognised by its type, yields no text either. *)
Lemma word_yields_no_text decode_utf8 exn_str (f : UploadedFile) :
  contains (lit "word") (type f) = true ->
  fst (read_file_content decode_utf8 exn_str f) = None.
Proof.
  intros H. unfold read_file_content.
  destruct (str_eqb (type f) (lit "text/plain")) eqn:E1.
  - apply str_eqb_eq in E1. rewrite E1 in H. vm_compute in H. discriminate.
  - destruct (str_eqb (type f) (lit "application/pdf")); [reflexivity|].
    rewrite H. reflexivity.
Qed.

(** C9, as stated, fails: an uploaded PDF with nothing pasted gives no
    contract text, yet with an API key entered the analyze button is not
    disabled. *)
Lemma unreadable_upload_leaves_button_enabled :
  fst (acquire_contract_text Sample.decode_utf8 Sample.exn_str (Some Sample.pdf) [])
  = None /\
  analyze_button_disabled (lit "sk-key") (Some Sample.pdf) [] = false.
Proof. split; reflexivity. Qed.

(** Line 200 read as a condition on the widgets. *)
Lemma analyze_button_disabled_iff api_key uploaded_file manual_text :
  analyze_button_disabled api_key uploaded_file manual_text = true
  <-> api_key = [] \/ (uploaded_file = None /\ manual_text = []).
Proof.
  unfold analyze_button_disabled.
  destruct api_key, uploaded_file, manual_text; simpl;
    intuition (discriminate || congruence).
Qed.

(** Pasted text is contract text. *)
Lemma no_text_nothing_pasted decode_utf8 exn_str uploaded_file manual_text :
  text_available
    (fst (acquire_contract_text decode_utf8 exn_str uploaded_file manual_text))
  = false ->
  manual_text = [].
Proof.
  unfold acquire_contract_text.
  destruct (match uploaded_file with
            | Some f => read_file_content decode_utf8 exn_str f
            | None => (None, [])
            end) as [ct out].
  destruct manual_text; [reflexivity | discriminate].
Qed.

(** An upload of PDF type, or of a type that names Word, with nothing
    pasted: no text, one advisory. *)
Lemma unsupported_upload_advisory decode_utf8 exn_str (f : UploadedFile) :
  type f = lit "application/pdf" \/ contains (lit "word") (type f) = true ->
  exists advisory,
    acquire_contract_text decode_utf8 exn_str (Some f) []
    = (None, [st_warning advisory]).
Proof.
  intros [H|H]; unfold acquire_contract_text.
  - rewrite (pdf_yields_no_text _ _ _ H). now exists pdf_advisory.
  - unfold read_file_content.
    destruct (str_eqb (type f) (lit "text/plain")) eqn:E1.
    { apply str_eqb_eq in E1. rewrite E1 in H. vm_compute in H. discriminate. }
    destruct (str_eqb (type f) (lit "application/pdf")).
    + now exists pdf_advisory.
    + rewrite H. now exists word_advisory.
Qed.

(** C9, amended.  When the upload and the paste field give no contract
    text, no analysis is started: whatever the analysis function, the
    handler leaves the session as it is and, when the button was pressed
    with an API key entered, only reports that text is missing.  Nothing is
    pasted then, and the button is disabled exactly when no API key is
    entered or no file is uploaded: with a key entered, an upload that gave
    no text leaves it enabled.  An upload of PDF type, or of a type that
    names Word, is such an upload: it gives no text, only an advisory. *)
Theorem no_text_no_analysis
    (decode_utf8 : list N -> result str) (exn_str : exn -> str)
    (analyze : str -> str -> option parsed * list ui)
    (now : datetime) (st : SessionState) (analyze_button : bool)
    (api_key : str) (uploaded_file : option UploadedFile) (manual_text : str) :
  let contract_text :=
    fst (acquire_contract_text decode_utf8 exn_str uploaded_file manual_text) in
  let disabled := analyze_button_disabled api_key uploaded_file manual_text in
  text_available contract_text = false ->
  perform_analysis analyze now st analyze_button api_key contract_text
  = (st, if analyze_button && truthy api_key
         then [st_error missing_text_error] else [])
  /\ manual_text = []
  /\ (disabled = true <-> api_key = [] \/ uploaded_file = None)
  /\ (disabled = false <-> api_key <> [] /\ uploaded_file <> None)
  /\ (forall f,
        type f = lit "application/pdf" \/ contains (lit "word") (type f) = true ->
        exists advisory,
          acquire_contract_text decode_utf8 exn_str (Some f) []
          = (None, [st_warning advisory])).
Proof.
  cbv zeta. intros Hno.
  pose proof (no_text_nothing_pasted _ _ _ _ Hno) as Hm.
  assert (Hd : analyze_button_disabled api_key uploaded_file manual_text = true
               <-> api_key = [] \/ uploaded_file = None).
  { rewrite analyze_button_disabled_iff. intuition. }
  split; [|split; [exact Hm|split; [exact Hd|split]]].
  - unfold perform_analysis.
    destruct (analyze_button && truthy api_key); [|reflexivity].
    destruct (fst _) as [text|]; [|reflexivity].
    simpl in Hno. now rewrite Hno.
  - rewrite <- not_true_iff_false, Hd.
    destruct api_key, uploaded_file; intuition (discriminate || congruence).
  - apply unsupported_upload_advisory.
Qed.

Lemma no_text_no_analysis_witness :
  perform_analysis Sample.service_down 1 initial_session true (lit "sk-key")
    (fst (acquire_contract_text Sample.decode_utf8 Sample.exn_str (Some Sample.pdf) []))
  = (initial_session, [st_error missing_text_error])
  /\ @nil N = []
  /\ (analyze_button_disabled (lit "sk-key") (Some Sample.pdf) [] = true
      <-> lit "sk-key" = [] \/ Some Sample.pdf = None)
  /\ (analyze_button_disabled (lit "sk-key") (Some Sample.pdf) [] = false
      <-> lit "sk-key" <> [] /\ Some Sample.pdf <> None)
  /\ (forall f,
        type f = lit "application/pdf" \/ contains (lit "word") (type f) = true ->
        exists advisory,
          acquire_contract_text Sample.decode_utf8 Sample.exn_str (Some f) []
          = (None, [st_warning advisory])).
Proof.
  apply (no_text_no_analysis Sample.decode_utf8 Sample.exn_str Sample.service_down
           1 initial_session true (lit "sk-key") (Some Sample.pdf) []).
  reflexivity.
Defined.

(** ** Risk banner *)

(** C6.  The banner is one of the three, chosen from the critical and the
    warning count alone: high risk exactly when critical > 0, otherwise
    moderate risk exactly when warning > 3, otherwise low risk. *)
Theorem risk_banner_selection (results : AnalysisResult) :
  let c := critical (summary results) in
  let w := warning (summary results) in
  (exists level,
     banner_level (risk_assessment results) = Some level /\
     (level = High <-> 0 < c) /\
     (level = Moderate <-> c <= 0 /\ 3 < w) /\
     (level = Low <-> c <= 0 /\ w <= 3)) /\
  risk_assessment results = risk_assessment (counts_only c w) /\
  banner_level (risk_assessment (counts_only 0 0)) = Some Low /\
  banner_level (risk_assessment (counts_only 0 4)) = Some Moderate /\
  banner_level (risk_assessment (counts_only 1 0)) = Some High /\
  banner_level (risk_assessment (counts_only 2 10)) = Some High.
Proof.
  cbv zeta. split; [|split; [reflexivity | repeat split; reflexivity]].
  unfold risk_assessment.
  destruct (Z.ltb_spec 0 (critical (summary results))) as [Hc|Hc].
  - exists High. simpl. repeat split; try easy; try lia.
  - destruct (Z.ltb_spec 3 (warning (summary results))) as [Hw|Hw].
    + exists Moderate. simpl. repeat split; try easy; try lia.
    + exists Low. simpl. repeat split; try easy; try lia.
Qed.

(** ** Severity filter *)

Lemma filtered_sublist results S :
  filtered_findings results S `sublist_of` findings results.
Proof.
  unfold filtered_findings. induction (findings results) as [|f fs IH]; simpl.
  - constructor.
  - destruct (str_in (severity f) S); now constructor.
Qed.

Lemma filtered_elem results S f :
  f ∈ filtered_findings results S <-> f ∈ findings results /\ severity f ∈ S.
Proof.
  unfold filtered_findings.
  rewrite <- str_in_spec, !list_elem_of_In, filter_In. reflexivity.
Qed.

Lemma filtered_maximal results S (l : list Finding) :
  l `sublist_of` findings results ->
  Forall (fun f => severity f ∈ S) l ->
  l `sublist_of` filtered_findings results S.
Proof.
  unfold filtered_findings. induction 1 as [|f l1 l2 _ IH|f l1 l2 _ IH]; intros HS.
  - constructor.
  - apply Forall_cons in HS as [Hf HS]. apply str_in_spec in Hf.
    simpl. rewrite Hf. constructor. auto.
  - simpl. destruct (str_in (severity f) S); [constructor|]; auto.
Qed.

Section Run.

Variable client : Type.
Variable Anthropic : str -> result client.
Variable messages_create : client -> string -> Z -> str -> result str.
Variable json_loads : str -> result parsed.
Variable format_field : str -> str -> option N -> str -> result str.
Variable exn_str : exn -> str.
Variable decode_utf8 : list N -> result str.
Variable upper : str -> str.
Variable strftime : datetime -> string -> str.

Local Abbreviation run_script :=
  (run client Anthropic messages_create json_loads format_field exn_str
     decode_utf8 upper strftime).

(** A run in which no button is pressed shows the stored result and keeps
    the session, but for the name of a newly uploaded file. *)
Lemma viewing_run api_key uploaded_file manual_text S now results fname date :
  let st := {| analysis_results := Some results;
               uploaded_file_name := fname; analysis_date := date |} in
  let st1 := {| analysis_results := Some results;
                uploaded_file_name :=
                  match uploaded_file with Some f => Some (name f) | None => fname end;
                analysis_date := date |} in
  let out := run_script (viewing api_key uploaded_file manual_text S now) st in
  fst out = st1 /\
  findings_shown (snd out) = filtered_findings results S /\
  report (snd out) = Some (text_report upper strftime now st1 results).
Proof.
  cbv zeta. unfold run, viewing. simpl.
  destruct (acquire_contract_text _ _ _ _) as [ct out1].
  unfold st_button. simpl. unfold perform_analysis. simpl.
  destruct uploaded_file; simpl; auto.
Qed.

(** C7.  With a result stored, a run that only sets the severity filter to
    [S] displays exactly the findings of the stored result whose severity is
    in [S], in their stored order (the displayed list is the longest
    subsequence of the stored findings with severities in [S]), and the
    stored result, summary and findings, is the same after the run. *)
Theorem filter_is_a_view api_key uploaded_file manual_text S now results fname date :
  let st := {| analysis_results := Some results;
               uploaded_file_name := fname; analysis_date := date |} in
  let out := run_script (viewing api_key uploaded_file manual_text S now) st in
  let displayed := findings_shown (snd out) in
  displayed = filtered_findings results S /\
  (forall f, f ∈ displayed <-> f ∈ findings results /\ severity f ∈ S) /\
  displayed `sublist_of` findings results /\
  (forall l, l `sublist_of` findings results ->
             Forall (fun f => severity f ∈ S) l -> l `sublist_of` displayed) /\
  analysis_results (fst out) = Some results.
Proof.
  cbv zeta.
  destruct (viewing_run api_key uploaded_file manual_text S now results fname date)
    as (Hst & Hshown & _).
  rewrite Hshown, Hst.
  split; [reflexivity|]. split; [apply filtered_elem|].
  split; [apply filtered_sublist|]. split; [apply filtered_maximal | reflexivity].
Qed.

(** The cards on the page are those of the displayed findings, in order. *)
Lemma display_findings_cards results S :
  display_findings results S = List.map render_finding (filtered_findings results S).
Proof. reflexivity. Qed.

Lemma report_loop_spec (fs : list Finding) (idx : Z) (acc : str) :
  report_loop upper fs idx acc
  = acc ++ concat (imap (fun i f => report_entry upper (idx + Z.of_nat i) f) fs).
Proof.
  revert idx acc. induction fs as [|f fs IH]; intros idx acc.
  - simpl. now rewrite app_nil_r.
  - cbn [report_loop]. rewrite IH, imap_cons, concat_cons, <- app_assoc, Z.add_0_r.
    do 3 f_equal. apply imap_ext. intros i x _. unfold compose. f_equal. lia.
Qed.

(** The session after a run, and the report on the page, do not depend on
    the filter. *)
Lemma run_filter_irrelevant inp S st :
  fst (run_script (with_filter S inp) st) = fst (run_script inp st) /\
  report (snd (run_script (with_filter S inp) st)) = report (snd (run_script inp st)).
Proof.
  unfold run, with_filter. simpl.
  destruct (acquire_contract_text _ _ _ _) as [ct out1].
  destruct (perform_analysis _ _ _ _ _ _) as [st2 out3].
  destruct (analysis_results st2); simpl; auto.
Qed.

(** C8.  The text report is the header followed by one entry per finding of
    the stored result, in the stored order, the entry of the finding at
    position [i] (from 0) carrying the number [i + 1]; an entry shows the
    upper-cased severity with the issue, then category, details, location
    and recommendation.  The report of a run is that of the unfiltered
    result whatever the severity filter is. *)
Theorem text_report_enumerates api_key uploaded_file manual_text S now results fname date
    (inp : Inputs) (st0 : SessionState) :
  let st := {| analysis_results := Some results;
               uploaded_file_name := fname; analysis_date := date |} in
  let st1 := fst (run_script (viewing api_key uploaded_file manual_text S now) st) in
  text_report upper strftime now st1 results
  = report_header strftime now st1 results
    ++ concat (imap (fun i f => report_entry upper (Z.of_nat i + 1) f)
                 (findings results)) /\
  (forall idx f,
     report_entry upper idx f
     = line [] ++ line (str_of_int idx ++ lit ". [" ++ upper (severity f) ++ lit "] "
                        ++ issue f)
       ++ line (lit "   Category: " ++ category f)
       ++ line (lit "   Details: " ++ details f)
       ++ line (lit "   Location: " ++ location f)
       ++ line (lit "   Recommendation: " ++ recommendation f)
       ++ line []) /\
  report (snd (run_script (viewing api_key uploaded_file manual_text S now) st))
  = Some (text_report upper strftime now st1 results) /\
  report (snd (run_script (with_filter S inp) st0)) = report (snd (run_script inp st0)).
Proof.
  cbv zeta.
  destruct (viewing_run api_key uploaded_file manual_text S now results fname date)
    as (Hst & _ & Hrep).
  rewrite Hst, Hrep.
  split; [|split; [reflexivity | split; [reflexivity | apply run_filter_irrelevant]]].
  unfold text_report. rewrite report_loop_spec. do 2 f_equal.
  apply imap_ext. intros i x _. f_equal. lia.
Qed.

End Run.

Example sample_text_report :
  text_report Sample.upper Sample.strftime 0 Sample.session Sample.results
  = unlines ([
      "CONTRACT ANALYSIS REPORT";
      "Generated: 2025-01-01 00:00:00";
      "File: contract.txt";
      EmptyString;
      "SUMMARY";
      "=======";
      "Total Issues: 3";
      "Critical: 1";
      "Warnings: 1";
      "Informational: 0";
      EmptyString;
      "DETAILED FINDINGS";
      "=================";
      EmptyString;
      EmptyString;
      "1. [CRITICAL] No GMP";
      "   Category: Payment Terms";
      "   Details: ...";
      "   Location: Article 4";
      "   Recommendation: Add GMP clause";
      EmptyString;
      EmptyString;
      "2. [URGENT] Odd tier";
      "   Category: Payment Terms";
      "   Details: ...";
      "   Location: Article 4";
      "   Recommendation: Add GMP clause";
      EmptyString;
      EmptyString;
      "3. [WARNING] High markup";
      "   Category: Payment Terms";
      "   Details: ...";
      "   Location: Article 4";
      "   Recommendation: Add GMP clause";
      EmptyString
    ])%string.
Proof. reflexivity. Qed.

(** C10.  The filter offers the three tiers only, so its selection [S] is
    among them; a finding whose severity is none of the three is then never
    among the displayed findings, nor is its card on the page. *)
Theorem unknown_severity_never_shown (results : AnalysisResult) (S : list str)
    (f : Finding) :
  (S ⊆ severity_options) ->
  (severity f ∉ severity_options) ->
  (f ∉ filtered_findings results S) /\
  (render_finding f ∉ display_findings results S).
Proof.
  intros HS Hf.
  assert (Hnot : f ∉ filtered_findings results S).
  { intros Hin. apply filtered_elem in Hin as [_ Hin]. apply Hf, HS, Hin. }
  split; [assumption|].
  unfold display_findings. rewrite list_elem_of_In, in_map_iff.
  intros (g & Hg & Hin). injection Hg as _ _ ->.
  apply Hnot. now apply list_elem_of_In.
Qed.

Lemma unknown_severity_never_shown_witness :
  (Sample.finding "urgent" "Odd tier"
     ∉ filtered_findings Sample.results severity_options) /\
  (render_finding (Sample.finding "urgent" "Odd tier")
     ∉ display_findings Sample.results severity_options).
Proof.
  apply (unknown_severity_never_shown Sample.results severity_options
           (Sample.finding "urgent" "Odd tier")).
  - reflexivity.
  - apply (bool_decide_unpack _). vm_compute. exact I.
Defined.

Example sample_filtered :
  filtered_findings Sample.results severity_options
  = [Sample.finding "critical" "No GMP"; Sample.finding "warning" "High markup"]
  /\ filtered_findings Sample.results [lit "warning"]
     = [Sample.finding "warning" "High markup"]
  /\ filtered_findings Sample.results [] = [].
Proof. repeat split; reflexivity. Qed.

(** * Further properties *)

(** ** Trimming *)

Lemma lstrip_split s :
  exists ws, s = ws ++ lstrip s /\ all_space ws = true.
Proof.
  induction s as [|c s (ws & Hs & Hws)]; [exists []; split; reflexivity|].
  simpl. destruct (isspace c) eqn:Hc.
  - exists (c :: ws). simpl. rewrite Hc, Hws. split; [now f_equal | reflexivity].
  - exists []. split; reflexivity.
Qed.

Lemma lstrip_clean s : starts_clean (lstrip s) = true.
Proof.
  induction s as [|c s IH]; [reflexivity|]. simpl.
  destruct (isspace c) eqn:Hc; [assumption|]. simpl. now rewrite Hc.
Qed.

Lemma all_space_reverse ws : all_space (reverse ws) = all_space ws.
Proof.
  unfold all_space. induction ws as [|c ws IH]; [reflexivity|].
  rewrite reverse_cons, forallb_app, IH. simpl. rewrite andb_true_r. apply andb_comm.
Qed.

Lemma rstrip_split s :
  exists ws, s = rstrip s ++ ws /\ all_space ws = true.
Proof.
  unfold rstrip. destruct (lstrip_split (reverse s)) as (ws & Hs & Hws).
  exists (reverse ws). split; [|now rewrite all_space_reverse].
  rewrite <- reverse_app, <- Hs. now rewrite reverse_involutive.
Qed.

Lemma rstrip_ends_clean s : starts_clean (reverse (rstrip s)) = true.
Proof. unfold rstrip. rewrite reverse_involutive. apply lstrip_clean. Qed.

Lemma rstrip_keeps_clean_start s :
  starts_clean s = true -> starts_clean (rstrip s) = true.
Proof.
  intros Hs. destruct (rstrip_split s) as (ws & Heq & Hws).
  destruct (rstrip s) as [|d r] eqn:Hr; [reflexivity|].
  rewrite Heq in Hs. exact Hs.
Qed.

Lemma strip_decompose (s : str) :
  exists ws1 ws2,
    s = ws1 ++ strip s ++ ws2 /\
    all_space ws1 = true /\ all_space ws2 = true /\
    trimmed (strip s) = true.
Proof.
  destruct (lstrip_split s) as (ws1 & H1 & Hw1).
  destruct (rstrip_split (lstrip s)) as (ws2 & H2 & Hw2).
  exists ws1, ws2. unfold strip. repeat split; try assumption.
  - now rewrite <- H2.
  - unfold trimmed. rewrite rstrip_ends_clean, andb_true_r.
    apply rstrip_keeps_clean_start, lstrip_clean.
Qed.

Lemma lstrip_of_clean s : starts_clean s = true -> lstrip s = s.
Proof.
  destruct s as [|c s]; [reflexivity|]. simpl.
  now destruct (isspace c).
Qed.

Lemma trimmed_strip s : trimmed (strip s) = true.
Proof. destruct (strip_decompose s) as (? & ? & _ & _ & _ & H). exact H. Qed.

Lemma strip_of_trimmed s : trimmed s = true -> strip s = s.
Proof.
  unfold trimmed. intros H. apply andb_prop in H as [H1 H2].
  unfold strip, rstrip. rewrite (lstrip_of_clean s H1), (lstrip_of_clean _ H2).
  apply reverse_involutive.
Qed.

Lemma part_of_refl s : part_of s s.
Proof. exists [], []. now rewrite app_nil_r. Qed.

Lemma part_of_trans a b c : part_of a b -> part_of b c -> part_of a c.
Proof.
  intros (p1 & q1 & ->) (p2 & q2 & ->). exists (p2 ++ p1), (q1 ++ q2).
  now rewrite <- !app_assoc.
Qed.

Lemma strip_part s : part_of (strip s) s.
Proof. destruct (strip_decompose s) as (ws1 & ws2 & H & _). now exists ws1, ws2. Qed.

Lemma slice_part s a b : part_of (slice s a b) s.
Proof.
  unfold slice.
  exists (take (Z.to_nat (clamp (len s) a)) s),
         (drop (Z.to_nat (clamp (len s) b - clamp (len s) a))
               (drop (Z.to_nat (clamp (len s) a)) s)).
  now rewrite take_drop, take_drop.
Qed.

(** X1.  [strip] removes a run of whitespace at each end, all of it and
    nothing else: what is left neither begins nor ends with whitespace, and
    stripping it again changes nothing. *)
Theorem strip_removes_surrounding_whitespace (s : str) :
  (exists ws1 ws2,
     s = ws1 ++ strip s ++ ws2 /\ all_space ws1 = true /\ all_space ws2 = true) /\
  trimmed (strip s) = true /\
  strip (strip s) = strip s.
Proof.
  destruct (strip_decompose s) as (ws1 & ws2 & H & H1 & H2 & Ht).
  split; [now exists ws1, ws2|]. split; [assumption|].
  now apply strip_of_trimmed.
Qed.

(** ** More on response extraction *)

(** X2.  Whatever the completion text, the candidate handed to the parser is
    a contiguous part of it: extraction only cuts, it never adds or
    reorders characters. *)
Theorem candidate_part_of_response (text : str) :
  part_of (find_json_in_response text) text.
Proof.
  unfold find_json_in_response.
  destruct (contains fence_json text).
  - eapply part_of_trans; [apply strip_part | apply slice_part].
  - destruct (contains fence text); [|apply part_of_refl].
    eapply part_of_trans; [apply strip_part | apply slice_part].
Qed.

Lemma contains_tag_contains_fence text :
  contains fence_json text = true -> contains fence text = true.
Proof.
  intros H. destruct (contains fence text) eqn:E; [reflexivity|].
  exfalso. unfold contains in E. apply negb_false_iff, Z.eqb_eq in E.
  change (find text fence 0) with (find text fence (Z.of_nat 0)) in E.
  apply find_none_inv in E; [|lia].
  rewrite (contains_none _ _ (no_fence_no_tag _ _ E)) in H. discriminate.
Qed.

(** X3.  When the completion text contains a fence, tagged or bare, closed
    or not, the candidate has no whitespace at either end. *)
Theorem fenced_candidate_trimmed (text : str) :
  contains fence text = true ->
  trimmed (find_json_in_response text) = true.
Proof.
  intros H. unfold find_json_in_response.
  destruct (contains fence_json text); [apply trimmed_strip|].
  rewrite H. apply trimmed_strip.
Qed.

Lemma fenced_candidate_trimmed_witness :
  trimmed (find_json_in_response Demo.bare_reply) = true.
Proof. apply (fenced_candidate_trimmed Demo.bare_reply). reflexivity. Defined.

Lemma bare_fence_extraction_witness :
  find_json_in_response Demo.bare_reply
  = strip (between Demo.bare_reply (13 + 3) 24).
Proof.
  apply (bare_fence_extraction Demo.bare_reply 13 24).
  - apply find_none_inv; [vm_compute; lia | reflexivity].
  - apply find_first_inv; [vm_compute; lia | reflexivity].
  - apply find_first_inv; [vm_compute; lia | reflexivity].
Defined.

Example bare_reply_candidate :
  find_json_in_response Demo.bare_reply = lit "[1, 2]".
Proof. reflexivity. Qed.

(** A tagged block is taken even when a bare block comes first, and only
    the first tagged block is. *)
Example two_blocks_candidate :
  find_json_in_response Demo.two_blocks = lit "{}".
Proof. reflexivity. Qed.

Lemma unclosed_tagged_fence_witness :
  find_json_in_response Sample.unclosed_reply
  = strip (between Sample.unclosed_reply (0 + 7) (length Sample.unclosed_reply - 1)).
Proof.
  apply (unclosed_tagged_fence Sample.unclosed_reply 0).
  - apply find_first_inv; [vm_compute; lia | reflexivity].
  - apply find_none_inv; [vm_compute; lia | reflexivity].
Defined.

Lemma unclosed_bare_fence_witness :
  find_json_in_response Sample.unclosed_bare_reply
  = strip (between Sample.unclosed_bare_reply (0 + 3)
             (length Sample.unclosed_bare_reply - 1)).
Proof.
  apply (unclosed_bare_fence Sample.unclosed_bare_reply 0).
  - apply find_none_inv; [vm_compute; lia | reflexivity].
  - apply find_first_inv; [vm_compute; lia | reflexivity].
  - apply find_none_inv; [vm_compute; lia | reflexivity].
Defined.

Lemma occurs_at_part sub t s pre post k :
  s = pre ++ t ++ post -> occurs_at sub t k -> occurs_at sub s (length pre + k).
Proof.
  intros -> [Hk Hp]. split.
  - rewrite !length_app. lia.
  - rewrite drop_app_ge by lia.
    replace (length pre + k - length pre)%nat with k by lia.
    rewrite drop_app_le by lia.
    destruct Hp as [r Hr]. rewrite Hr. exists (r ++ post). now rewrite app_assoc.
Qed.

Lemma no_occurrence_part sub t s :
  part_of t s -> no_occurrence sub s 0 -> no_occurrence sub t 0.
Proof.
  intros (pre & post & Hs) Hno k _ Hocc.
  apply (Hno (length pre + k)%nat); [lia|]. eapply occurs_at_part; eauto.
Qed.

Lemma between_decompose s a b :
  (a <= b <= length s)%nat ->
  s = take a s ++ between s a b ++ drop b s.
Proof.
  intros H. unfold between.
  rewrite <- (take_drop a s) at 1. f_equal.
  rewrite <- (take_drop (b - a) (drop a s)) at 1. f_equal.
  rewrite drop_drop. f_equal. lia.
Qed.

Lemma no_fence_between sub text a j :
  sub <> [] -> first_occurrence sub text a j ->
  no_occurrence sub (between text a j) 0.
Proof.
  intros Hne (Haj & [Hj _] & Hmin) k _ Hocc.
  assert (Hlen : (k + length sub <= length (between text a j))%nat)
    by now apply occurs_at_length.
  assert (Hb : length (between text a j) = (j - a)%nat).
  { unfold between. rewrite length_take, length_drop. lia. }
  assert (Hs : (0 < length sub)%nat) by (destruct sub; [contradiction | simpl; lia]).
  apply (Hmin (a + k)%nat); [lia|].
  replace (a + k)%nat with (length (take a text) + k)%nat
    by (rewrite length_take; lia).
  eapply occurs_at_part; [apply (between_decompose text a j); lia | exact Hocc].
Qed.

(** X6.  The candidate cut out of a closed tagged block contains no fence,
    so extracting from the candidate again returns it unchanged. *)
Theorem closed_block_extraction_idempotent (text : str) (i j : nat) :
  first_occurrence fence_json text 0 i ->
  first_occurrence fence text (i + 7) j ->
  contains fence (find_json_in_response text) = false /\
  find_json_in_response (find_json_in_response text) = find_json_in_response text.
Proof.
  intros Hi Hj.
  assert (Hno : no_occurrence fence (find_json_in_response text) 0).
  { unfold find_json_in_response at 1.
    rewrite (contains_first _ _ _ Hi).
    change (find text fence_json 0) with (find text fence_json (Z.of_nat 0)).
    rewrite (find_first _ _ _ _ Hi).
    replace (Z.of_nat i + 7) with (Z.of_nat (i + 7)) by lia.
    rewrite (find_first _ _ _ _ Hj). cbv zeta.
    assert (Hjl : (j <= length text)%nat) by apply Hj.
    assert (Hij : (i + 7 <= j)%nat) by apply Hj.
    rewrite slice_between by lia.
    eapply no_occurrence_part; [apply strip_part|].
    now apply no_fence_between. }
  split; [now apply contains_none | now apply unfenced_text_unchanged].
Qed.

Lemma closed_block_extraction_idempotent_witness :
  contains fence (find_json_in_response Demo.two_blocks) = false /\
  find_json_in_response (find_json_in_response Demo.two_blocks)
  = find_json_in_response Demo.two_blocks.
Proof.
  apply (closed_block_extraction_idempotent Demo.two_blocks 15 26);
    apply find_first_inv; try (vm_compute; lia); reflexivity.
Defined.

(** ** Extraction without a closing fence, and without any fence

    As above, the statements are about the extraction of lines 118-130 as a
    function of the completion text, for every text. *)






Example unclosed_bare_candidate :
  find_json_in_response Demo.unclosed_bare = lit "[1, 2" /\
  strip (drop (1 + 3) Demo.unclosed_bare) = lit "[1, 2]".
Proof. split; reflexivity. Qed.



(** ** The string operations the script relies on *)

Lemma find_range sub s start :
  find s sub start = -1 \/ 0 <= find s sub start <= len s.
Proof.
  unfold find, len. destruct (Z.ltb_spec (Z.of_nat (length s)) start); [now left|].
  set (b := Z.to_nat (clamp (Z.of_nat (length s)) start)).
  assert (Hb : (b <= length s)%nat).
  { unfold b, clamp. destruct (Z.ltb_spec start 0); lia. }
  destruct (find_at_result sub (drop b s) b) as [[Hr _]|(k & Hr & Hf)]; [now left|].
  right. rewrite Hr. destruct Hf as (_ & [Hk _] & _).
  rewrite length_drop in Hk. lia.
Qed.

(** X8.  [s.find(sub, start)] for a [start] within the text: a result of
    [k >= 0] means exactly that [k] is the first index at or after [start]
    where [sub] occurs, a result of -1 means exactly that there is none, and
    there is no other result. *)
Theorem find_characterised (sub s : str) (start : nat) :
  (start <= length s)%nat ->
  (forall k, find s sub (Z.of_nat start) = Z.of_nat k
             <-> first_occurrence sub s start k) /\
  (find s sub (Z.of_nat start) = -1 <-> no_occurrence sub s start) /\
  (find s sub (Z.of_nat start) = -1 \/
   Z.of_nat start <= find s sub (Z.of_nat start) <= len s - len sub).
Proof.
  intros Hs. split; [|split].
  - intros k. split; [now apply find_first_inv | apply find_first].
  - split; [now apply find_none_inv | apply find_none].
  - destruct (find_range sub s (Z.of_nat start)) as [H|H]; [now left|]. right.
    remember (find s sub (Z.of_nat start)) as r eqn:Hr. symmetry in Hr.
    rewrite <- (Z2Nat.id r) in Hr by lia.
    apply find_first_inv in Hr; [|assumption].
    destruct Hr as (Hle & Hocc & _). apply occurs_at_length in Hocc.
    unfold len. lia.
Qed.

Lemma find_characterised_witness :
  (forall k, find Demo.bare_reply fence (Z.of_nat 16) = Z.of_nat k
             <-> first_occurrence fence Demo.bare_reply 16 k) /\
  (find Demo.bare_reply fence (Z.of_nat 16) = -1
   <-> no_occurrence fence Demo.bare_reply 16) /\
  (find Demo.bare_reply fence (Z.of_nat 16) = -1 \/
   Z.of_nat 16 <= find Demo.bare_reply fence (Z.of_nat 16)
   <= len Demo.bare_reply - len fence).
Proof. apply (find_characterised fence Demo.bare_reply 16). vm_compute. lia. Defined.

(** [sub in s] holds exactly when [sub] occurs somewhere in [s]. *)
Lemma contains_iff sub s :
  contains sub s = true <-> exists k, occurs_at sub s k.
Proof.
  split.
  - intros H. unfold contains in H. apply negb_true_iff, Z.eqb_neq in H.
    change (find s sub 0) with (find s sub (Z.of_nat 0)) in H.
    destruct (find_range sub s (Z.of_nat 0)) as [Hr|Hr]; [contradiction|].
    remember (find s sub (Z.of_nat 0)) as r eqn:Er. symmetry in Er.
    rewrite <- (Z2Nat.id r) in Er by lia.
    apply find_first_inv in Er; [|lia]. exists (Z.to_nat r). apply Er.
  - intros [k Hk]. destruct (contains sub s) eqn:E; [reflexivity|]. exfalso.
    unfold contains in E. apply negb_false_iff, Z.eqb_eq in E.
    change (find s sub 0) with (find s sub (Z.of_nat 0)) in E.
    apply find_none_inv in E; [|lia]. apply (E k); [lia | assumption].
Qed.

(** [s.endswith(sub)] holds exactly when [sub] is at the end of [s]. *)
Lemma endswith_suffix s sub : endswith s sub = true <-> sub `suffix_of` s.
Proof. unfold endswith. now rewrite startswith_prefix, suffix_prefix_reverse. Qed.

(** X9.  Slicing never fails and clamps its bounds: for every index [k],
    negative or beyond the end, [s[0:k]] followed by [s[k:len(s)]] is [s];
    a slice within the text has as many characters as its bounds are
    apart. *)
Theorem slice_round_trip (s : str) (k a b : Z) :
  slice s 0 k ++ slice s k (len s) = s /\
  len (slice s a b) = Z.max 0 (clamp (len s) b - clamp (len s) a).
Proof.
  assert (Hc : forall i, 0 <= clamp (len s) i <= len s).
  { intros i. unfold clamp, len. destruct (Z.ltb_spec i 0); lia. }
  split.
  - unfold slice. rewrite (clamp_id (len s) 0), (clamp_id (len s) (len s))
      by (unfold len; lia).
    specialize (Hc k). set (m := clamp (len s) k) in *.
    change (Z.to_nat 0) with 0%nat. rewrite drop_0, Z.sub_0_r.
    rewrite (take_ge (drop _ _)) by (rewrite length_drop; unfold len in *; lia).
    apply take_drop.
  - unfold slice, len at 1. rewrite length_take, length_drop.
    pose proof (Hc a). pose proof (Hc b). unfold len in *. lia.
Qed.

(** ** More on input acquisition *)

Lemma truthy_iff s : truthy s = true <-> s <> [].
Proof. destruct s; simpl; split; congruence. Qed.

Lemma str_eqb_neq a b : str_eqb a b = false <-> a <> b.
Proof.
  rewrite <- str_eqb_eq. destruct (str_eqb a b); split; congruence.
Qed.

(** X10.  Pasted text takes precedence: whenever anything is pasted it is
    the contract text, whatever was uploaded, and the messages of reading
    the upload are shown all the same. *)
Theorem pasted_text_takes_precedence decode_utf8 exn_str
    (uploaded_file : option UploadedFile) (manual_text : str) :
  manual_text <> [] ->
  acquire_contract_text decode_utf8 exn_str uploaded_file manual_text
  = (Some manual_text,
     match uploaded_file with
     | Some f => snd (read_file_content decode_utf8 exn_str f)
     | None => []
     end).
Proof.
  intros H. apply truthy_iff in H. unfold acquire_contract_text.
  destruct uploaded_file as [f|].
  - destruct (read_file_content decode_utf8 exn_str f) as [ct out]. now rewrite H.
  - now rewrite H.
Qed.

Lemma pasted_text_takes_precedence_witness :
  acquire_contract_text Sample.decode_utf8 Sample.exn_str (Some Sample.pdf)
    (lit "Article 1")
  = (Some (lit "Article 1"),
     snd (read_file_content Sample.decode_utf8 Sample.exn_str Sample.pdf)).
Proof.
  apply (pasted_text_takes_precedence Sample.decode_utf8 Sample.exn_str
           (Some Sample.pdf) (lit "Article 1")).
  discriminate.
Defined.

Lemma decoded_text decode_utf8 exn_str f t :
  fst (decoded decode_utf8 exn_str f) = Some t -> decode_utf8 (data f) = Ok t.
Proof.
  unfold decoded. destruct (decode_utf8 (data f)); simpl; congruence.
Qed.

(** X11.  The contract text is never made up: when there is one, it is the
    pasted text, or else nothing was pasted and it is the UTF-8 decoding of
    the bytes of an uploaded file that is not a PDF. *)
Theorem contract_text_is_input decode_utf8 exn_str
    (uploaded_file : option UploadedFile) (manual_text t : str) :
  fst (acquire_contract_text decode_utf8 exn_str uploaded_file manual_text) = Some t ->
  (manual_text <> [] /\ t = manual_text) \/
  (manual_text = [] /\
   exists f, uploaded_file = Some f /\ decode_utf8 (data f) = Ok t /\
             type f <> lit "application/pdf").
Proof.
  unfold acquire_contract_text. intros H.
  destruct manual_text as [|c m].
  - right. split; [reflexivity|]. destruct uploaded_file as [f|]; [|discriminate].
    exists f. split; [reflexivity|].
    destruct (read_file_content decode_utf8 exn_str f) as [ct out] eqn:E.
    simpl in H. subst ct. unfold read_file_content in E.
    destruct (str_eqb (type f) (lit "text/plain")) eqn:E1.
    + apply str_eqb_eq in E1. split.
      * apply (decoded_text decode_utf8 exn_str). now rewrite E.
      * rewrite E1. discriminate.
    + destruct (str_eqb (type f) (lit "application/pdf")) eqn:E2; [discriminate|].
      apply str_eqb_neq in E2.
      destruct (contains _ _ || _); [discriminate|]. split; [|assumption].
      apply (decoded_text decode_utf8 exn_str). now rewrite E.
  - left. split; [discriminate|].
    destruct uploaded_file as [f|];
      [destruct (read_file_content decode_utf8 exn_str f)|]; simpl in H; congruence.
Qed.

Lemma contract_text_is_input_witness :
  (@nil N <> [] /\ lit "Art. 1" = []) \/
  (@nil N = [] /\
   exists f, Some Demo.text_file = Some f /\ Sample.decode_utf8 (data f) = Ok (lit "Art. 1") /\
             type f <> lit "application/pdf").
Proof.
  apply (contract_text_is_input Sample.decode_utf8 Sample.exn_str
           (Some Demo.text_file) [] (lit "Art. 1")).
  reflexivity.
Defined.

(** X12.  An upload whose bytes do not decode as UTF-8 never yields
    contract text: with nothing pasted the input section produces no text
    and exactly one message, the error with the text of the exception when
    decoding was tried (always so for text/plain), or else the PDF or Word
    advisory. *)
Theorem undecodable_upload decode_utf8 exn_str (f : UploadedFile) (e : exn) :
  decode_utf8 (data f) = Raise e ->
  exists m,
    acquire_contract_text decode_utf8 exn_str (Some f) [] = (None, [m]) /\
    (type f = lit "text/plain" ->
     m = st_error (lit "Error reading file: " ++ exn_str e)) /\
    (m = st_error (lit "Error reading file: " ++ exn_str e) \/
     m = st_warning pdf_advisory \/ m = st_warning word_advisory).
Proof.
  intros Hd. unfold acquire_contract_text, read_file_content, decoded. rewrite Hd.
  destruct (str_eqb (type f) (lit "text/plain")) eqn:E1.
  - eexists. split; [reflexivity|]. split; [reflexivity | now left].
  - apply str_eqb_neq in E1.
    destruct (str_eqb (type f) (lit "application/pdf")).
    + eexists. split; [reflexivity|]. split; [contradiction | right; now left].
    + destruct (contains _ _ || _).
      * eexists. split; [reflexivity|]. split; [contradiction | right; now right].
      * eexists. split; [reflexivity|]. split; [reflexivity | now left].
Qed.

Lemma undecodable_upload_witness :
  exists m,
    acquire_contract_text Sample.decode_utf8 Sample.exn_str (Some Demo.binary_file) []
    = (None, [m]) /\
    (type Demo.binary_file = lit "text/plain" ->
     m = st_error (lit "Error reading file: "
                   ++ Sample.exn_str (Exception (lit "'utf-8' codec can't decode bytes")))) /\
    (m = st_error (lit "Error reading file: "
                   ++ Sample.exn_str (Exception (lit "'utf-8' codec can't decode bytes"))) \/
     m = st_warning pdf_advisory \/ m = st_warning word_advisory).
Proof.
  apply (undecodable_upload Sample.decode_utf8 Sample.exn_str Demo.binary_file).
  reflexivity.
Defined.

Lemma decoded_not_advisory decode_utf8 exn_str f msg :
  decoded decode_utf8 exn_str f <> (None, [st_warning msg]).
Proof. unfold decoded. destruct (decode_utf8 (data f)); discriminate. Qed.

(** X13.  An upload is turned away with the Word advisory exactly when its
    type is neither text/plain nor application/pdf and either the type
    contains "word" or the name ends in .doc or .docx.  So a file named
    .docx that arrives as text/plain is read as text. *)
Theorem word_refusal decode_utf8 exn_str (f : UploadedFile) :
  read_file_content decode_utf8 exn_str f = (None, [st_warning word_advisory])
  <->
  type f <> lit "text/plain" /\ type f <> lit "application/pdf" /\
  ((exists k, occurs_at (lit "word") (type f) k) \/
   lit ".doc" `suffix_of` name f \/ lit ".docx" `suffix_of` name f).
Proof.
  unfold read_file_content.
  destruct (str_eqb (type f) (lit "text/plain")) eqn:E1.
  { apply str_eqb_eq in E1. split.
    - intros H. now apply decoded_not_advisory in H.
    - intros (H & _). contradiction. }
  apply str_eqb_neq in E1.
  destruct (str_eqb (type f) (lit "application/pdf")) eqn:E2.
  { apply str_eqb_eq in E2. split.
    - intros H. exfalso. injection H as H. vm_compute in H. discriminate.
    - intros (_ & H & _). contradiction. }
  apply str_eqb_neq in E2.
  destruct (contains (lit "word") (type f)
            || (endswith (name f) (lit ".doc") || endswith (name f) (lit ".docx"))) eqn:E3.
  - split; [intros _|reflexivity]. split; [assumption|]. split; [assumption|].
    apply orb_prop in E3 as [E3|E3]; [left; now apply contains_iff|].
    apply orb_prop in E3 as [E3|E3]; right; [left|right]; now apply endswith_suffix.
  - split.
    + intros H. now apply decoded_not_advisory in H.
    + intros (_ & _ & H). exfalso.
      apply orb_false_elim in E3 as [Ea E3]. apply orb_false_elim in E3 as [Eb Ec].
      destruct H as [H|[H|H]].
      * apply contains_iff in H. congruence.
      * apply endswith_suffix in H. congruence.
      * apply endswith_suffix in H. congruence.
Qed.

Example docx_sent_as_text :
  acquire_contract_text Sample.decode_utf8 Sample.exn_str (Some Demo.text_file) []
  = (Some (lit "Art. 1"), [])
  /\ fst (acquire_contract_text Sample.decode_utf8 Sample.exn_str (Some Demo.word_file) [])
     = None.
Proof. split; reflexivity. Qed.

(** ** The handler and whole runs *)

Section Runs.

Variable client : Type.
Variable Anthropic : str -> result client.
Variable messages_create : client -> string -> Z -> str -> result str.
Variable json_loads : str -> result parsed.
Variable format_field : str -> str -> option N -> str -> result str.
Variable exn_str : exn -> str.
Variable decode_utf8 : list N -> result str.
Variable upper : str -> str.
Variable strftime : datetime -> string -> str.

Local Abbreviation analyze :=
  (analyze_contract_with_claude client Anthropic messages_create json_loads
     format_field exn_str).

Local Abbreviation run_script :=
  (run client Anthropic messages_create json_loads format_field exn_str
     decode_utf8 upper strftime).

Local Abbreviation run_scripts :=
  (run_all client Anthropic messages_create json_loads format_field exn_str
     decode_utf8 upper strftime).

(** X26.  The analysis function never returns a result and never raises:
    every call ends in the [except] branch with one error message, on the
    exception of constructing the client if that fails and otherwise on the
    [KeyError] of formatting the prompt; the completion service and the
    JSON parser are never reached. *)
Theorem analysis_always_fails (contract_text api_key : str) :
  analyze contract_text api_key
  = (None,
     [st_error (lit "Error analyzing contract: "
                ++ exn_str match Anthropic api_key with
                           | Raise e => e
                           | Ok _ => KeyError summary_field
                           end)]).
Proof.
  unfold analyze_contract_with_claude, analysis_failed.
  destruct (Anthropic api_key); [|reflexivity].
  vm_compute compile_prompt. reflexivity.
Qed.

(** With the script's own analysis function the handler never changes the
    session. *)
Lemma perform_analysis_keeps_session now st button api_key contract_text :
  fst (perform_analysis analyze now st button api_key contract_text) = st.
Proof.
  unfold perform_analysis.
  destruct (button && truthy api_key); [|reflexivity].
  destruct contract_text as [text|]; [|reflexivity].
  destruct (truthy text); [|reflexivity].
  pose proof (analyze_returns_none client Anthropic messages_create json_loads
                format_field exn_str text api_key) as Hnone.
  destruct (analyze text api_key) as [[r|] out]; [discriminate | reflexivity].
Qed.

Lemma run_session inp st :
  fst (run_script inp st)
  = let st1 := match in_uploaded_file inp with
               | Some f => {| analysis_results := analysis_results st;
                              uploaded_file_name := Some (name f);
                              analysis_date := analysis_date st |}
               | None => st
               end in
    match analysis_results st with
    | Some _ => if in_reset_pressed inp then reset_session st1 else st1
    | None => st1
    end.
Proof.
  unfold run. destruct (acquire_contract_text _ _ _ _) as [ct out1].
  match goal with
  | |- context [perform_analysis ?a ?n ?s ?b ?k ?c] =>
      pose proof (perform_analysis_keeps_session n s b k c) as Hp;
      destruct (perform_analysis a n s b k c) as [st2 out3]
  end.
  simpl in Hp. subst st2. cbv zeta.
  destruct (in_uploaded_file inp); simpl; destruct (analysis_results st); reflexivity.
Qed.

(** X15.  No run of the script stores an analysis result: prompt
    compilation raises on every call, so after any run, whatever was
    uploaded, pasted or pressed, the session's result is the one it had
    before, or none if reset was pressed. *)
Theorem run_never_stores (inp : Inputs) (st : SessionState) :
  analysis_results (fst (run_script inp st))
  = if in_reset_pressed inp then None else analysis_results st.
Proof.
  rewrite run_session. cbv zeta. destruct st as [res fname date]. simpl.
  destruct (in_uploaded_file inp), res, (in_reset_pressed inp); reflexivity.
Qed.

Lemma run_page_without_results inp st :
  analysis_results st = None ->
  findings_shown (snd (run_script inp st)) = [] /\
  report (snd (run_script inp st)) = None.
Proof.
  intros Hst. unfold run. destruct (acquire_contract_text _ _ _ _) as [ct out1].
  match goal with
  | |- context [perform_analysis ?a ?n ?s ?b ?k ?c] =>
      pose proof (perform_analysis_keeps_session n s b k c) as Hp;
      destruct (perform_analysis a n s b k c) as [st2 out3]
  end.
  simpl in Hp. subst st2.
  destruct (in_uploaded_file inp); simpl; rewrite Hst; split; reflexivity.
Qed.

(** X16.  Starting from the initial session, after any sequence of runs
    the session holds no result, and the next run shows no finding and
    offers no report: the results dashboard is never reached. *)
Theorem results_never_appear (inputs : list Inputs) (inp : Inputs) :
  let st := run_scripts inputs initial_session in
  analysis_results st = None /\
  findings_shown (snd (run_script inp st)) = [] /\
  report (snd (run_script inp st)) = None.
Proof.
  cbv zeta.
  assert (H : forall st, analysis_results st = None ->
                         analysis_results (run_scripts inputs st) = None).
  { induction inputs as [|i inputs IH]; intros st Hst; [exact Hst|].
    simpl. apply IH. rewrite run_session. cbv zeta. rewrite Hst.
    destruct (in_uploaded_file i); [reflexivity | exact Hst]. }
  split; [now apply H|]. apply run_page_without_results. now apply H.
Qed.



(** X14.  While the analyze button is disabled, that is with no API key,
    or with neither an upload nor pasted text, pressing it changes nothing:
    the run is the run in which it was not pressed. *)
Theorem disabled_button_inert (inp : Inputs) (st : SessionState) :
  in_api_key inp = [] \/ (in_uploaded_file inp = None /\ in_manual_text inp = []) ->
  analyze_disabled (snd (run_script inp st)) = true /\
  run_script inp st = run_script (with_pressed false inp) st.
Proof.
  intros H.
  assert (Hd : analyze_button_disabled (in_api_key inp) (in_uploaded_file inp)
                 (in_manual_text inp) = true).
  { unfold analyze_button_disabled. destruct H as [->|[-> ->]]; [reflexivity|].
    simpl. apply orb_true_r. }
  unfold run, with_pressed. simpl. rewrite Hd.
  destruct (acquire_contract_text _ _ _ _) as [ct out1].
  unfold st_button. simpl. rewrite !andb_false_r.
  split; [|reflexivity].
  destruct (perform_analysis _ _ _ _ _ _) as [st2 out3].
  destruct (analysis_results st2); reflexivity.
Qed.

(** X23.  Reset is offered with the results: pressed while a result is
    stored it clears the result and the file name, and keeps the date of
    the analysis. *)
Theorem reset_clears_result (inp : Inputs) (st : SessionState) (r : AnalysisResult) :
  analysis_results st = Some r ->
  in_reset_pressed inp = true ->
  fst (run_script inp st)
  = {| analysis_results := None; uploaded_file_name := None;
       analysis_date := analysis_date st |}.
Proof.
  intros Hr Hp. rewrite run_session. cbv zeta. rewrite Hr, Hp.
  destruct (in_uploaded_file inp); reflexivity.
Qed.

End Runs.


(** A run on a PDF upload with a key entered and the button pressed: the
    echo of the upload, the advisory, and the report of missing text. *)
Example pdf_upload_page :
  shown (snd (run unit Sample.Anthropic Sample.messages_create Sample.json_loads
                Sample.format_field Sample.exn_str Sample.decode_utf8 Sample.upper
                Sample.strftime
                {| in_api_key := lit "sk-key"; in_uploaded_file := Some Sample.pdf;
                   in_manual_text := []; in_analyze_pressed := true;
                   in_severity_filter := severity_options;
                   in_reset_pressed := false; in_now := 3 |}
                initial_session))
  = [upload_echo Sample.pdf; st_warning pdf_advisory; st_error missing_text_error].
Proof. reflexivity. Qed.

Lemma disabled_button_inert_witness :
  let inp := {| in_api_key := []; in_uploaded_file := Some Sample.pdf;
                in_manual_text := lit "Article 1"; in_analyze_pressed := true;
                in_severity_filter := severity_options; in_reset_pressed := false;
                in_now := 3 |} in
  let run_script :=
    run unit Sample.Anthropic Sample.messages_create Sample.json_loads
      Sample.format_field Sample.exn_str Sample.decode_utf8 Sample.upper
      Sample.strftime in
  analyze_disabled (snd (run_script inp Sample.session)) = true /\
  run_script inp Sample.session = run_script (with_pressed false inp) Sample.session.
Proof.
  cbv zeta.
  apply (disabled_button_inert unit Sample.Anthropic Sample.messages_create
           Sample.json_loads Sample.format_field Sample.exn_str Sample.decode_utf8
           Sample.upper Sample.strftime).
  left. reflexivity.
Defined.

Lemma reset_clears_result_witness :
  fst (run unit Sample.Anthropic Sample.messages_create Sample.json_loads
         Sample.format_field Sample.exn_str Sample.decode_utf8 Sample.upper
         Sample.strftime
         {| in_api_key := lit "sk-key"; in_uploaded_file := None;
            in_manual_text := []; in_analyze_pressed := false;
            in_severity_filter := severity_options; in_reset_pressed := true;
            in_now := 3 |}
         Sample.session)
  = {| analysis_results := None; uploaded_file_name := None;
       analysis_date := analysis_date Sample.session |}.
Proof.
  apply (reset_clears_result unit Sample.Anthropic Sample.messages_create
           Sample.json_loads Sample.format_field Sample.exn_str Sample.decode_utf8
           Sample.upper Sample.strftime _ Sample.session Sample.results);
    reflexivity.
Defined.

(** ** Presentation of a finding *)

Lemma tiers_distinct :
  lit "critical" <> lit "warning" /\ lit "critical" <> lit "informational" /\
  lit "warning" <> lit "informational".
Proof. repeat split; discriminate. Qed.

(** X18.  A card is red exactly for critical, orange exactly for warning
    and blue for everything else, while the badge is the blue one exactly
    for informational and the white one exactly for a severity outside the
    three tiers: a finding of an unknown tier is drawn as a blue card with
    a white badge. *)
Theorem severity_presentation (sev : str) :
  (severity_color sev = "red"%string <-> sev = lit "critical") /\
  (severity_color sev = "orange"%string <-> sev = lit "warning") /\
  (severity_color sev = "blue"%string
   <-> sev <> lit "critical" /\ sev <> lit "warning") /\
  (display_severity_badge sev = 128309%N <-> sev = lit "informational") /\
  (display_severity_badge sev = 9898%N <-> (sev ∉ severity_options)).
Proof.
  destruct tiers_distinct as (Hcw & Hci & Hwi).
  unfold severity_color, display_severity_badge, severity_options.
  rewrite !not_elem_of_cons.
  destruct (str_eqb sev (lit "critical")) eqn:Ec.
  { apply str_eqb_eq in Ec. subst sev.
    repeat split; try discriminate; try congruence; intuition congruence. }
  apply str_eqb_neq in Ec.
  destruct (str_eqb sev (lit "warning")) eqn:Ew.
  { apply str_eqb_eq in Ew. subst sev.
    repeat split; try discriminate; try congruence; intuition congruence. }
  apply str_eqb_neq in Ew.
  destruct (str_eqb sev (lit "informational")) eqn:Ei.
  { apply str_eqb_eq in Ei. subst sev.
    repeat split; try discriminate; try congruence; intuition congruence. }
  apply str_eqb_neq in Ei.
  repeat split; try discriminate; try congruence; try (intros; apply not_elem_of_nil);
    intuition congruence.
Qed.

(** ** More on the severity filter *)

Lemma filter_keeps_all {A} (p : A -> bool) (l : list A) :
  List.filter p l = l <-> Forall (fun x => p x = true) l.
Proof.
  induction l as [|x l IH]; simpl.
  - split; [constructor | reflexivity].
  - destruct (p x) eqn:Hx.
    + split.
      * intros H. injection H as H. constructor; [assumption | now apply IH].
      * intros H. apply Forall_cons in H as [_ H]. f_equal. now apply IH.
    + split.
      * intros H. exfalso.
        pose proof (List.filter_length_le p l) as Hlen.
        rewrite H in Hlen. simpl in Hlen. lia.
      * intros H. apply Forall_cons in H as [H _]. congruence.
Qed.

(** X19.  The filter shows every finding exactly when every finding's
    severity is selected; with all three tiers selected, the default,
    nothing is hidden exactly when all severities are among the tiers. *)
Theorem filter_shows_all_iff (results : AnalysisResult) (S : list str) :
  (filtered_findings results S = findings results
   <-> Forall (fun f => severity f ∈ S) (findings results)) /\
  (filtered_findings results severity_options = findings results
   <-> forallb known_severity (findings results) = true).
Proof.
  unfold filtered_findings, known_severity. rewrite !filter_keeps_all. split.
  - apply Forall_iff. intros f. apply str_in_spec.
  - rewrite forallb_forall, Forall_forall. split; intros H f Hf; apply H.
    + now apply list_elem_of_In.
    + now apply list_elem_of_In.
Qed.

Example default_filter_on_known_tiers :
  filtered_findings Demo.known_results severity_options = findings Demo.known_results
  /\ filtered_findings Sample.results severity_options <> findings Sample.results.
Proof. split; [reflexivity | vm_compute; discriminate]. Qed.

(** X20.  Only the set of selected tiers matters: two selections with the
    same members, in any order and with any repetitions, display the same
    findings. *)
Theorem filter_selection_as_set (results : AnalysisResult) (S1 S2 : list str) :
  (forall sev, sev ∈ S1 <-> sev ∈ S2) ->
  filtered_findings results S1 = filtered_findings results S2.
Proof.
  intros H. unfold filtered_findings. apply List.filter_ext. intros f.
  specialize (H (severity f)). rewrite <- !str_in_spec in H.
  destruct (str_in (severity f) S1), (str_in (severity f) S2); intuition congruence.
Qed.

Lemma filter_selection_as_set_witness :
  filtered_findings Sample.results [lit "warning"; lit "critical"]
  = filtered_findings Sample.results [lit "critical"; lit "warning"; lit "critical"].
Proof.
  apply (filter_selection_as_set Sample.results).
  intros sev. rewrite !elem_of_cons, !elem_of_nil. tauto.
Defined.

Lemma filter_filter {A} (p q : A -> bool) (l : list A) :
  List.filter p (List.filter q l) = List.filter (fun x => p x && q x) l.
Proof.
  induction l as [|x l IH]; [reflexivity|]. simpl.
  destruct (q x); simpl; [|now rewrite andb_false_r].
  rewrite andb_true_r. destruct (p x); now rewrite IH.
Qed.

(** X21.  Filtering composes: filtering what one selection displays by a
    second selection gives the same list in either order, and when the
    second selection is within the first it gives what the second alone
    displays; in particular filtering twice by the same selection changes
    nothing. *)
Theorem filter_composes (results : AnalysisResult) (S1 S2 : list str) :
  filtered_findings (with_findings (filtered_findings results S1) results) S2
  = filtered_findings (with_findings (filtered_findings results S2) results) S1 /\
  ((S2 ⊆ S1) ->
   filtered_findings (with_findings (filtered_findings results S1) results) S2
   = filtered_findings results S2) /\
  filtered_findings (with_findings (filtered_findings results S1) results) S1
  = filtered_findings results S1.
Proof.
  unfold filtered_findings, with_findings. simpl. rewrite !filter_filter.
  split; [|split].
  - apply List.filter_ext. intros f. apply andb_comm.
  - intros Hsub. apply List.filter_ext. intros f.
    destruct (str_in (severity f) S2) eqn:E2; [|reflexivity].
    apply str_in_spec, Hsub, str_in_spec in E2. now rewrite E2.
  - apply List.filter_ext. intros f. now destruct (str_in (severity f) S1).
Qed.

(** ** More on the text report *)

Lemma report_loop_entries upper (fs : list Finding) (idx : Z) (acc : str) :
  report_loop upper fs idx acc
  = acc ++ concat (imap (fun i f => report_entry upper (idx + Z.of_nat i) f) fs).
Proof.
  revert idx acc. induction fs as [|f fs IH]; intros idx acc.
  - simpl. now rewrite app_nil_r.
  - cbn [report_loop]. rewrite IH, imap_cons, concat_cons, <- app_assoc, Z.add_0_r.
    do 3 f_equal. apply imap_ext. intros i x _. unfold compose. f_equal. lia.
Qed.

(** X22.  The report grows with the findings and its header does not
    depend on them: the report of a result with more findings appended is
    the report of the shorter result followed by the entries of the new
    findings, numbered on from where the numbering stopped; the counts in
    the header stay the self-reported ones. *)
Theorem report_of_appended_findings upper strftime (now : datetime)
    (st : SessionState) (results : AnalysisResult) (fs1 fs2 : list Finding) :
  text_report upper strftime now st (with_findings (fs1 ++ fs2) results)
  = text_report upper strftime now st (with_findings fs1 results)
    ++ concat (imap (fun i f =>
                       report_entry upper (Z.of_nat (length fs1 + i) + 1) f) fs2)
  /\ report_header strftime now st (with_findings fs1 results)
     = report_header strftime now st results
  /\ text_report upper strftime now st (with_findings [] results)
     = report_header strftime now st results.
Proof.
  split; [|split; reflexivity].
  unfold text_report, with_findings. simpl findings.
  change (report_header strftime now st
            {| summary := summary results; findings := fs1 ++ fs2 |})
    with (report_header strftime now st
            {| summary := summary results; findings := fs1 |}).
  rewrite !report_loop_entries, imap_app, concat_app, app_assoc.
  do 2 f_equal. apply imap_ext. intros i x _. f_equal. lia.
Qed.

(** ** The upload echo *)

Lemma split_last_segment (sep : N) (s : str) :
  exists init seg,
    split sep s = init ++ [seg] /\ (sep ∉ seg) /\
    s = concat (List.map (fun x => x ++ [sep]) init) ++ seg.
Proof.
  induction s as [|c s (init & seg & Hsp & Hseg & Hs)].
  - exists [], []. repeat split. apply not_elem_of_nil.
  - simpl. destruct (N.eqb_spec c sep) as [->|Hne].
    + exists ([] :: init), seg. rewrite Hsp. repeat split; [assumption|].
      simpl. now f_equal.
    + rewrite Hsp. destruct init as [|x init].
      * exists [], (c :: seg). simpl in *. repeat split.
        -- apply not_elem_of_cons. split; [congruence | assumption].
        -- now f_equal.
      * exists ((c :: x) :: init), seg. simpl in *. repeat split; [assumption|].
        now f_equal.
Qed.

(** X24.  The Type metric shows the upper-cased text after the last slash
    of the MIME type: that text has no slash, and it is the whole type when
    the type has no slash at all.  Taking the last item never fails, as
    [split] always returns at least one segment. *)
Theorem upload_type_label upper (f : UploadedFile) :
  exists seg,
    type_label upper f = upper seg /\ (c_slash ∉ seg) /\
    split c_slash (type f) <> [] /\
    (type f = seg \/ exists pre, type f = pre ++ c_slash :: seg).
Proof.
  destruct (split_last_segment c_slash (type f)) as (init & seg & Hsp & Hseg & Hs).
  exists seg. unfold type_label, last_item. rewrite Hsp, List.last_last.
  repeat split; [assumption | now destruct init |].
  destruct init as [|x init _] using rev_ind; [now left|]. right.
  rewrite List.map_app, concat_app in Hs. simpl in Hs.
  exists (concat (List.map (fun x => x ++ [c_slash]) init) ++ x).
  rewrite Hs, app_nil_r, <- !app_assoc. reflexivity.
Qed.

Example pdf_type_label :
  type_label Sample.upper Sample.pdf = lit "PDF"
  /\ type_label Sample.upper Demo.text_file = lit "PLAIN".
Proof. split; reflexivity. Qed.

(** ** [str.format] used as intended *)

Lemma format_escaped_text kwargs format_field (t out : str) :
  fold_left (Format.step kwargs format_field) (escape_braces t) (Format.Text out)
  = Format.Text (out ++ t).
Proof.
  revert out. induction t as [|c t IH]; intros out; [now rewrite app_nil_r|].
  change (escape_braces (c :: t))
    with ((if N.eqb c Format.c_lbrace || N.eqb c Format.c_rbrace
           then [c; c] else [c]) ++ escape_braces t).
  rewrite fold_left_app.
  assert (Hc : fold_left (Format.step kwargs format_field)
                 (if N.eqb c Format.c_lbrace || N.eqb c Format.c_rbrace
                  then [c; c] else [c]) (Format.Text out)
               = Format.Text (out ++ [c])).
  { destruct (N.eqb c Format.c_lbrace) eqn:El; cbn [orb fold_left Format.step].
    - rewrite El. cbn [Format.step]. now rewrite El.
    - destruct (N.eqb c Format.c_rbrace) eqn:Er; cbn [fold_left Format.step].
      + rewrite El, Er. cbn [Format.step]. now rewrite Er.
      + now rewrite El, Er. }
  rewrite Hc, IH, <- app_assoc. reflexivity.
Qed.

(** X25.  How the template would have to be written: with the braces of
    its literal text doubled and the one field [{contract_text}] between,
    [format] returns the literal text with the contract text in place of
    the field, braces of the literal text single again. *)
Theorem format_with_escaped_braces format_field (before after contract_text : str) :
  format_field contract_text [] None [] = Ok contract_text ->
  Format.format [(lit "contract_text", contract_text)] format_field
    (escape_braces before ++ lit "{contract_text}" ++ escape_braces after)
  = Ok (before ++ contract_text ++ after).
Proof.
  intros Hf. unfold Format.format.
  rewrite !fold_left_app, format_escaped_text. rewrite app_nil_l.
  assert (Hfield :
    fold_left (Format.step [(lit "contract_text", contract_text)] format_field)
      (lit "{contract_text}") (Format.Text before)
    = Format.Text (before ++ contract_text)).
  { vm_compute. rewrite Hf. reflexivity. }
  rewrite Hfield, format_escaped_text, <- app_assoc. reflexivity.
Qed.

Lemma format_with_escaped_braces_witness :
  Format.format [(lit "contract_text", lit "Art. 1")] Sample.format_field
    (escape_braces (lit "{x: 1} ") ++ lit "{contract_text}" ++ escape_braces (lit " {}"))
  = Ok (lit "{x: 1} " ++ lit "Art. 1" ++ lit " {}").
Proof.
  apply (format_with_escaped_braces Sample.format_field (lit "{x: 1} ") (lit " {}")
           (lit "Art. 1")).
  reflexivity.
Defined.

(** The template of the script is not written that way: its literal text,
    the part before the field, has single braces. *)
Example template_not_escaped :
  exists before,
    CONTRACT_ANALYSIS_PROMPT = before ++ lit "{contract_text}" ++ [10%N] /\
    brace_free before = false /\ escape_braces before <> before.
Proof.
  exists (take (length CONTRACT_ANALYSIS_PROMPT - 16) CONTRACT_ANALYSIS_PROMPT).
  repeat split; try reflexivity. vm_compute. discriminate.
Qed.
